(** * Nix manager: flake.lock extraction

  A shallow embedding of [lib/modules/manager/nix/schema.ts] and of the two
  variants of [extractPackageFile] (the one reading the sibling
  [flake.lock], and the one parsing the content it is handed), together
  with the properties of the extraction.

  Strings are sequences of code units, modelled by [string]; a JavaScript
  object is modelled by the list of its own enumerable properties, in the
  order [Object.keys] enumerates them. *)

From Stdlib Require Import String Ascii List ZArith Bool Lia.
Import ListNotations.
Open Scope string_scope.

Set Warnings "-register-all".

(** ** JavaScript values and operators *)

Module JS.

(** The values the schema is run on: what [JSON.parse] can build. A key
    absent from [JObject] reads as [undefined]. The numbers of a lock file
    (its version, a count of revisions, a time stamp) are integers. *)
Inductive value : Type :=
| JNull
| JBool (b : bool)
| JNumber (n : Z)
| JString (s : string)
| JArray (items : list value)
| JObject (props : list (string * value)).

(** [obj[key]] on own properties: [None] is [undefined]. *)
Fixpoint get {A : Type} (key : string) (props : list (string * A)) : option A :=
  match props with
  | [] => None
  | (k, v) :: rest => if String.eqb key k then Some v else get key rest
  end.

(** [Object.keys(obj)]. *)
Definition Object_keys {A : Type} (props : list (string * A)) : list string :=
  map fst props.

(** Property names every plain object inherits from [Object.prototype]. *)
Definition Object_prototype_keys : list string :=
  [ "constructor"; "__defineGetter__"; "__defineSetter__"; "hasOwnProperty";
    "__lookupGetter__"; "__lookupSetter__"; "isPrototypeOf";
    "propertyIsEnumerable"; "toString"; "valueOf"; "__proto__";
    "toLocaleString" ].

Definition mem (key : string) (keys : list string) : bool :=
  existsb (String.eqb key) keys.

(** [key in obj] for a plain object: own properties, then the prototype. *)
Definition in_op {A : Type} (key : string) (props : list (string * A)) : bool :=
  mem key (Object_keys props) || mem key Object_prototype_keys.

(** [a ?? b]. *)
Definition nullish {A : Type} (a : option A) (b : A) : A :=
  match a with
  | Some x => x
  | None => b
  end.

(** [`${a}`] for a string or [undefined]. *)
Definition interpolate (a : option string) : string :=
  match a with
  | Some s => s
  | None => "undefined"
  end.

End JS.

Import JS.

(** ** The zod combinators the schema uses *)

Module Zod.

Definition bind {A B : Type} (m : option A) (f : A -> option B) : option B :=
  match m with
  | Some a => f a
  | None => None
  end.

Module Notations.
Notation "x <- m ;; k" := (bind m (fun x => k))
  (at level 61, m at next level, right associativity).
End Notations.
Import Notations.

(** [z.string()] *)
Definition string_ (v : value) : option string :=
  match v with
  | JString s => Some s
  | _ => None
  end.

(** [z.number()] *)
Definition number (v : value) : option Z :=
  match v with
  | JNumber n => Some n
  | _ => None
  end.

(** [z.enum([...])] *)
Definition enum (values : list string) (v : value) : option string :=
  match v with
  | JString s => if mem s values then Some s else None
  | _ => None
  end.

(** A key of [z.object] whose schema is not optional: [undefined] fails. *)
Definition required {A : Type} (schema : value -> option A)
    (v : option value) : option A :=
  match v with
  | Some x => schema x
  | None => None
  end.

(** [schema.optional()]: [undefined] is accepted and kept. *)
Definition optional {A : Type} (schema : value -> option A)
    (v : option value) : option (option A) :=
  match v with
  | Some x => option_map Some (schema x)
  | None => Some None
  end.

(** The entries of [z.record(z.string(), schema)]: every value is parsed,
    any failure fails the record. *)
Fixpoint entries {A : Type} (schema : value -> option A)
    (props : list (string * value)) : option (list (string * A)) :=
  match props with
  | [] => Some []
  | (k, v) :: rest =>
      a <- schema v ;;
      tl <- entries schema rest ;;
      Some ((k, a) :: tl)
  end.

(** [z.record(z.string(), schema)]: the result object is built by
    assignment, which leaves the key [__proto__] out. *)
Definition record {A : Type} (schema : value -> option A)
    (v : value) : option (list (string * A)) :=
  match v with
  | JObject props =>
      es <- entries schema props ;;
      Some (filter (fun e => negb (String.eqb (fst e) "__proto__")) es)
  | _ => None
  end.

(** [z.object({...})] reads the declared keys of an object and drops the
    others; [shape] is given the property reader. *)
Definition object {A : Type} (shape : (string -> option value) -> option A)
    (v : value) : option A :=
  match v with
  | JObject props => shape (fun key => get key props)
  | _ => None
  end.

End Zod.

(** ** schema.ts *)

Module Schema.
Import Zod.Notations.

Definition InputType : value -> option string :=
  Zod.enum ["git"; "github"; "gitlab"; "indirect"; "sourcehut"].

Record LockedInput : Type := mkLockedInput {
  locked_host : option string;
  locked_lastModified : Z;
  locked_narHash : string;
  locked_owner : option string;
  locked_repo : option string;
  locked_ref : option string;
  locked_rev : string;
  locked_revCount : Z;
  locked_type : string;
  locked_url : option string
}.

Definition LockedInput_schema : value -> option LockedInput :=
  Zod.object (fun field =>
    host <- Zod.optional Zod.string_ (field "host") ;;
    lastModified <- Zod.required Zod.number (field "lastModified") ;;
    narHash <- Zod.required Zod.string_ (field "narHash") ;;
    owner <- Zod.optional Zod.string_ (field "owner") ;;
    repo <- Zod.optional Zod.string_ (field "repo") ;;
    ref <- Zod.optional Zod.string_ (field "ref") ;;
    rev <- Zod.required Zod.string_ (field "rev") ;;
    revCount <- Zod.required Zod.number (field "revCount") ;;
    type <- Zod.required InputType (field "type") ;;
    url <- Zod.optional Zod.string_ (field "url") ;;
    Some (mkLockedInput host lastModified narHash owner repo ref rev
            revCount type url)).

Record OriginalInput : Type := mkOriginalInput {
  original_owner : option string;
  original_repo : option string;
  original_ref : option string;
  original_type : string;
  original_url : option string
}.

Definition OriginalInput_schema : value -> option OriginalInput :=
  Zod.object (fun field =>
    owner <- Zod.optional Zod.string_ (field "owner") ;;
    repo <- Zod.optional Zod.string_ (field "repo") ;;
    ref <- Zod.optional Zod.string_ (field "ref") ;;
    type <- Zod.required InputType (field "type") ;;
    url <- Zod.optional Zod.string_ (field "url") ;;
    Some (mkOriginalInput owner repo ref type url)).

(** [flakeOriginal.host]: the schema of [OriginalInput] declares no [host]
    key, and [z.object] drops the keys it does not declare, so that the
    property is never set on a parsed value. *)
Definition original_host (o : OriginalInput) : option string := None.

Record NixInput : Type := mkNixInput {
  inputs : option (list (string * string));
  locked : option LockedInput;
  original : option OriginalInput
}.

Definition NixInput_schema : value -> option NixInput :=
  Zod.object (fun field =>
    inputs <- Zod.optional (Zod.record Zod.string_) (field "inputs") ;;
    locked <- Zod.optional LockedInput_schema (field "locked") ;;
    original <- Zod.optional OriginalInput_schema (field "original") ;;
    Some (mkNixInput inputs locked original)).

Record NixFlakeLock : Type := mkNixFlakeLock {
  nodes : list (string * NixInput);
  root : string;
  version : Z
}.

Definition NixFlakeLock_schema : value -> option NixFlakeLock :=
  Zod.object (fun field =>
    nodes <- Zod.required (Zod.record NixInput_schema) (field "nodes") ;;
    root <- Zod.required Zod.string_ (field "root") ;;
    version <- Zod.required Zod.number (field "version") ;;
    Some (mkNixFlakeLock nodes root version)).

(** [NixFlakeLock.safeParse(data)]: [None] is [success: false]. *)
Definition safeParse (data : value) : option NixFlakeLock :=
  NixFlakeLock_schema data.

End Schema.

Import Schema.

(** ** util/regex: the tarball pattern *)

Module RegEx.

(** [.] in a pattern without the [s] flag: any code unit but a line
    terminator. *)
Definition dot (c : ascii) : bool :=
  negb (Ascii.eqb c "010" || Ascii.eqb c "013").

(** [[^/]] *)
Definition not_slash (c : ascii) : bool := negb (Ascii.eqb c "/").

(** Every code unit of [s] is in the class [p]. *)
Fixpoint all (p : ascii -> bool) (s : string) : bool :=
  match s with
  | EmptyString => true
  | String c rest => p c && all p rest
  end.

(** A literal at the head of the input; the rest of the input. *)
Fixpoint literal (lit s : string) : option string :=
  match lit, s with
  | EmptyString, _ => Some s
  | String a lit', String b s' => if Ascii.eqb a b then literal lit' s' else None
  | String _ _, EmptyString => None
  end.

(** [[^/]*] at the head of the input: the longest run without a slash, and
    the rest. Every use below is followed by a literal slash, so that no
    shorter run can match. *)
Fixpoint no_slash (s : string) : string * string :=
  match s with
  | EmptyString => (EmptyString, EmptyString)
  | String c rest =>
      if not_slash c then let (run, tl) := no_slash rest in (String c run, tl)
      else (EmptyString, s)
  end.

(** [(?<name>[^/]+)/] *)
Definition segment (s : string) : option (string * string) :=
  let (run, tl) := no_slash s in
  match run, literal "/" tl with
  | String _ _, Some tl' => Some (run, tl')
  | _, _ => None
  end.

(** [.] followed by a literal, at the head of the input. *)
Definition dot_literal (lit s : string) : option string :=
  match s with
  | String c rest => if dot c then literal lit rest else None
  | EmptyString => None
  end.

(** [(?<rev>.+).tar.gz$]: the input ends in the seven code units that
    [.tar.gz] matches, after a non-empty [rev] that [.+] matches. *)
Definition rev_tar_gz (s : string) : option string :=
  let n := String.length s in
  if (n <? 8)%nat then None
  else
    let rev := substring 0 (n - 7) s in
    match dot_literal "tar" (substring (n - 7) 7 s) with
    | Some s' =>
        match dot_literal "gz" s' with
        | Some EmptyString => if all dot rev then Some rev else None
        | _ => None
        end
    | None => None
    end.

Record groups : Type := mkGroups {
  domain : string;
  owner : string;
  repo : string;
  rev : string
}.

(** [lockableHTTPTarballProtocol.exec(s)?.groups] for
    [^https://(?<domain>[^/]+)/(?<owner>[^/]+)/(?<repo>[^/]+)/archive/(?<rev>.+).tar.gz$] *)
Definition lockableHTTPTarballProtocol (s : string) : option groups :=
  match literal "https://" s with
  | None => None
  | Some s1 =>
  match segment s1 with
  | None => None
  | Some (domain, s2) =>
  match segment s2 with
  | None => None
  | Some (owner, s3) =>
  match segment s3 with
  | None => None
  | Some (repo, s4) =>
  match literal "archive/" s4 with
  | None => None
  | Some s5 =>
  match rev_tar_gz s5 with
  | None => None
  | Some rev => Some (mkGroups domain owner repo rev)
  end end end end end end.

(** [s.replace(lockableHTTPTarballProtocol, 'https://$<domain>/$<owner>/$<repo>')]:
    the pattern is anchored at both ends, a match is the whole string. *)
Definition replace_lockableHTTPTarballProtocol (s : string) : string :=
  match lockableHTTPTarballProtocol s with
  | Some g => "https://" ++ domain g ++ "/" ++ owner g ++ "/" ++ repo g
  | None => s
  end.

End RegEx.

(** ** What both variants share: the records, the logger, the control flow *)

Record PackageDependency : Type := mkPackageDependency {
  depName : string;
  currentValue : option string;
  currentDigest : string;
  replaceString : string;
  datasource : string;
  packageName : option string
}.

Record PackageFileContent : Type := mkPackageFileContent {
  deps : list PackageDependency
}.

Module Logger.

Inductive level : Type := trace | debug | error.

Inductive message : Type :=
| nix_extractPackageFile (file : string)
    (** [nix.extractPackageFile(${file})] *)
| invalid_flake_lock
    (** [invalid flake.lock file] *)
| cannot_find_root
    (** [invalid flake.lock file because cannot find "root" node] *)
| empty_flake_input (flakeInput : NixInput)
    (** [Found empty flake input '${JSON.stringify(flakeInput)}', skipping] *)
| unknown_type (type : string)
    (** [Unknown flake.lock type "${type}", skipping] *)
| unsupported_version.
    (** [Unsupported flake lock version] *)

Definition entry : Type := level * message.

End Logger.

(** A run either completes or throws; the logger's sink is threaded through. *)
Module Run.

Inductive exception : Type := TypeError.

Inductive completion (A : Type) : Type :=
| Normal (a : A)
| Throw (e : exception).
Arguments Normal {A} a.
Arguments Throw {A} e.

Definition M (A : Type) : Type :=
  list Logger.entry -> completion A * list Logger.entry.

Definition ret {A : Type} (a : A) : M A := fun log => (Normal a, log).

Definition throw {A : Type} (e : exception) : M A := fun log => (Throw e, log).

Definition bind {A B : Type} (m : M A) (k : A -> M B) : M B :=
  fun log =>
    match m log with
    | (Normal a, log') => k a log'
    | (Throw e, log') => (Throw e, log')
    end.

Definition logger (l : Logger.level) (m : Logger.message) : M unit :=
  fun log => (Normal tt, (log ++ [(l, m)])%list).

(** [obj.field] where [obj] may be [undefined]. *)
Definition prop {A B : Type} (obj : option A) (field : A -> B) : M B :=
  match obj with
  | Some o => ret (field o)
  | None => throw TypeError
  end.

Module Notations.
Notation "x <-- m ;; k" := (bind m (fun x => k))
  (at level 61, m at next level, right associativity).
Notation "m ;;; k" := (bind m (fun _ => k))
  (at level 61, right associativity).
End Notations.
Import Notations.

(** [for (const key of keys) { s = body(key, s) }] *)
Fixpoint for_of {S : Type} (keys : list string) (body : string -> S -> M S)
    (s : S) : M S :=
  match keys with
  | [] => ret s
  | key :: rest => s' <-- body key s ;; for_of rest body s'
  end.

(** [if (deps.length) { return { deps }; } return null;] *)
Definition result (deps : list PackageDependency) : M (option PackageFileContent) :=
  match deps with
  | _ :: _ => ret (Some {| deps := deps |})
  | [] => ret None
  end.

(** The records of a run: the [deps] of the value returned, none when the
    run returns [null] or throws. *)
Definition emitted (r : completion (option PackageFileContent) * list Logger.entry)
    : list PackageDependency :=
  match fst r with
  | Normal (Some content) => deps content
  | _ => []
  end.

(** The run returned a value. *)
Definition returns {A : Type} (r : completion A * list Logger.entry) : Prop :=
  exists a, fst r = Normal a.

(** What a node contributes to [deps]. *)
Definition yield {A : Type} (o : option A) : list A :=
  match o with
  | Some a => [a]
  | None => []
  end.

End Run.

Import Run Run.Notations.

(** ** extractPackageFile, reading the sibling flake.lock *)

Module Sibling.
Section WithDatasource.

(** [GitRefsDatasource.id], of [lib/modules/datasource/git-refs]. *)
Variable GitRefsDatasource_id : string.

(** [switch (flakeLocked.type)]: the record a case pushes; [None] is the
    [default] case. *)
Definition classify (depName : string) (flakeLocked : LockedInput)
    (flakeOriginal : OriginalInput) : option PackageDependency :=
  let type := locked_type flakeLocked in
  if type =? "github" then
    Some {| depName := depName;
            currentValue := original_ref flakeOriginal;
            currentDigest := locked_rev flakeLocked;
            replaceString := locked_rev flakeLocked;
            datasource := GitRefsDatasource_id;
            packageName := Some ("https://"
              ++ nullish (original_host flakeOriginal) "github.com"
              ++ "/" ++ interpolate (original_owner flakeOriginal)
              ++ "/" ++ interpolate (original_repo flakeOriginal)) |}
  else if type =? "gitlab" then
    Some {| depName := depName;
            currentValue := original_ref flakeOriginal;
            currentDigest := locked_rev flakeLocked;
            replaceString := locked_rev flakeLocked;
            datasource := GitRefsDatasource_id;
            packageName := Some ("https://"
              ++ nullish (original_host flakeOriginal) "gitlab.com"
              ++ "/" ++ interpolate (original_owner flakeOriginal)
              ++ "/" ++ interpolate (original_repo flakeOriginal)) |}
  else if type =? "git" then
    Some {| depName := depName;
            currentValue := original_ref flakeOriginal;
            currentDigest := locked_rev flakeLocked;
            replaceString := locked_rev flakeLocked;
            datasource := GitRefsDatasource_id;
            packageName := original_url flakeOriginal |}
  else if type =? "sourcehut" then
    Some {| depName := depName;
            currentValue := original_ref flakeOriginal;
            currentDigest := locked_rev flakeLocked;
            replaceString := locked_rev flakeLocked;
            datasource := GitRefsDatasource_id;
            packageName := Some ("https://"
              ++ nullish (original_host flakeOriginal) "git.sr.ht"
              ++ "/" ++ interpolate (original_owner flakeOriginal)
              ++ "/" ++ interpolate (original_repo flakeOriginal)) |}
  else if type =? "tarball" then
    Some {| depName := depName;
            currentValue := locked_ref flakeLocked;
            currentDigest := locked_rev flakeLocked;
            replaceString := locked_rev flakeLocked;
            datasource := GitRefsDatasource_id;
            packageName := Some (RegEx.replace_lockableHTTPTarballProtocol
              (nullish (original_url flakeOriginal) "")) |}
  else None.

(** One turn of the loop over [Object.keys(flakeLock.nodes)]; [continue]
    returns [deps] as it stands. *)
Definition loop_body (flakeLock : NixFlakeLock) (depName : string)
    (deps : list PackageDependency) : M (list PackageDependency) :=
  if depName =? "root" then ret deps
  else
    rootInputs <-- prop (get "root" (nodes flakeLock)) inputs ;;
    if match rootInputs with
       | None => true
       | Some rootInputs => negb (in_op depName rootInputs)
       end
    then
      logger Logger.error Logger.cannot_find_root ;;;
      ret deps
    else
      match get depName (nodes flakeLock) with
      | None => throw TypeError
      | Some flakeInput =>
          match locked flakeInput, original flakeInput with
          | Some flakeLocked, Some flakeOriginal =>
              if original_type flakeOriginal =? "indirect" then ret deps
              else
                match classify depName flakeLocked flakeOriginal with
                | Some dep => ret (deps ++ [dep])%list
                | None =>
                    logger Logger.debug
                      (Logger.unknown_type (locked_type flakeLocked)) ;;;
                    ret deps
                end
          | _, _ =>
              logger Logger.debug (Logger.empty_flake_input flakeInput) ;;;
              ret deps
          end
      end.

(** The source derives [packageLockFile] from its argument [packageFile]
    with [getSiblingFileName] and awaits [readLocalFile] for
    [lockContents]; its argument [content] is not used. The two results are
    the arguments here. *)
Definition extractPackageFile (packageLockFile : string)
    (lockContents : value) : M (option PackageFileContent) :=
  logger Logger.trace (Logger.nix_extractPackageFile packageLockFile) ;;;
  match safeParse lockContents with
  | None =>
      logger Logger.error Logger.invalid_flake_lock ;;;
      ret None
  | Some flakeLock =>
      deps <-- for_of (Object_keys (nodes flakeLock)) (loop_body flakeLock) [] ;;
      result deps
  end.

End WithDatasource.

(** The guards of a turn, ahead of the [switch]: the two records of the node
    named [depName] when it gets to the [switch], [None] when a guard skips
    it. *)
Definition walk (flakeLock : NixFlakeLock) (depName : string)
    : option (LockedInput * OriginalInput) :=
  if depName =? "root" then None
  else
    match get "root" (nodes flakeLock) with
    | None => None
    | Some rootNode =>
        match inputs rootNode with
        | None => None
        | Some rootInputs =>
            if in_op depName rootInputs then
              match get depName (nodes flakeLock) with
              | None => None
              | Some flakeInput =>
                  match locked flakeInput, original flakeInput with
                  | Some flakeLocked, Some flakeOriginal =>
                      if original_type flakeOriginal =? "indirect" then None
                      else Some (flakeLocked, flakeOriginal)
                  | _, _ => None
                  end
              end
            else None
        end
    end.

(** The record a node stands for: walked, then classified. *)
Definition node_record (GitRefsDatasource_id : string)
    (flakeLock : NixFlakeLock) (depName : string) : option PackageDependency :=
  match walk flakeLock depName with
  | Some (flakeLocked, flakeOriginal) =>
      classify GitRefsDatasource_id depName flakeLocked flakeOriginal
  | None => None
  end.

End Sibling.

(** ** extractPackageFile, parsing the content it is given *)

Module Inline.
Section WithDatasource.

(** [GitRefsDatasource.id], of [lib/modules/datasource/git-refs]. *)
Variable GitRefsDatasource_id : string.

(** The chain of [if]s on the types: the record a branch pushes; [None] is
    the final [else]. *)
Definition classify (depName : string) (flakeLocked : LockedInput)
    (flakeOriginal : OriginalInput) : option PackageDependency :=
  if locked_type flakeLocked =? "github" then
    Some {| depName := depName;
            currentValue := original_ref flakeOriginal;
            currentDigest := locked_rev flakeLocked;
            replaceString := locked_rev flakeLocked;
            datasource := GitRefsDatasource_id;
            packageName := Some ("https://github.com/"
              ++ interpolate (original_owner flakeOriginal)
              ++ "/" ++ interpolate (original_repo flakeOriginal)) |}
  else if locked_type flakeLocked =? "gitlab" then
    Some {| depName := depName;
            currentValue := original_ref flakeOriginal;
            currentDigest := locked_rev flakeLocked;
            replaceString := locked_rev flakeLocked;
            datasource := GitRefsDatasource_id;
            packageName := Some ("https://gitlab.com/"
              ++ interpolate (original_owner flakeOriginal)
              ++ "/" ++ interpolate (original_repo flakeOriginal)) |}
  else if original_type flakeOriginal =? "git" then
    Some {| depName := depName;
            currentValue := original_ref flakeOriginal;
            currentDigest := locked_rev flakeLocked;
            replaceString := locked_rev flakeLocked;
            datasource := GitRefsDatasource_id;
            packageName := original_url flakeOriginal |}
  else if locked_type flakeLocked =? "sourcehut" then
    Some {| depName := depName;
            currentValue := original_ref flakeOriginal;
            currentDigest := locked_rev flakeLocked;
            replaceString := locked_rev flakeLocked;
            datasource := GitRefsDatasource_id;
            packageName := Some ("https://git.sr.ht/"
              ++ interpolate (original_owner flakeOriginal)
              ++ "/" ++ interpolate (original_repo flakeOriginal)) |}
  else None.

(** One turn of the loop over [Object.keys(flakeLock.nodes ?? {})]. *)
Definition loop_body (flakeLock : NixFlakeLock) (depName : string)
    (deps : list PackageDependency) : M (list PackageDependency) :=
  if depName =? "root" then ret deps
  else
    match get depName (nodes flakeLock) with
    | None => throw TypeError
    | Some flakeInput =>
        match locked flakeInput, original flakeInput with
        | Some flakeLocked, Some flakeOriginal =>
            if original_type flakeOriginal =? "indirect" then ret deps
            else
              match classify depName flakeLocked flakeOriginal with
              | Some dep => ret (deps ++ [dep])%list
              | None =>
                  logger Logger.debug
                    (Logger.unknown_type (locked_type flakeLocked)) ;;;
                  ret deps
              end
        | _, _ =>
            logger Logger.debug (Logger.empty_flake_input flakeInput) ;;;
            ret deps
        end
    end.

Definition extractPackageFile (content : value) (packageFile : string)
    : M (option PackageFileContent) :=
  logger Logger.trace (Logger.nix_extractPackageFile packageFile) ;;;
  match safeParse content with
  | None =>
      logger Logger.debug Logger.invalid_flake_lock ;;;
      ret None
  | Some flakeLock =>
      if negb (version flakeLock =? 7)%Z then
        logger Logger.debug Logger.unsupported_version ;;;
        ret None
      else
        deps <-- for_of (Object_keys (nodes flakeLock)) (loop_body flakeLock) [] ;;
        result deps
  end.

End WithDatasource.

(** The guards of a turn, ahead of the chain of [if]s: the two records of
    the node named [depName] when it gets there, [None] when a guard skips
    it. *)
Definition walk (flakeLock : NixFlakeLock) (depName : string)
    : option (LockedInput * OriginalInput) :=
  if depName =? "root" then None
  else
    match get depName (nodes flakeLock) with
    | None => None
    | Some flakeInput =>
        match locked flakeInput, original flakeInput with
        | Some flakeLocked, Some flakeOriginal =>
            if original_type flakeOriginal =? "indirect" then None
            else Some (flakeLocked, flakeOriginal)
        | _, _ => None
        end
    end.

(** The record a node stands for: walked, then classified. *)
Definition node_record (GitRefsDatasource_id : string)
    (flakeLock : NixFlakeLock) (depName : string) : option PackageDependency :=
  match walk flakeLock depName with
  | Some (flakeLocked, flakeOriginal) =>
      classify GitRefsDatasource_id depName flakeLocked flakeOriginal
  | None => None
  end.

End Inline.

(** ** Lock files used as examples *)

Module Examples.

Definition locked_value (type rev : string) (more : list (string * value))
    : value :=
  JObject ([ ("lastModified", JNumber 1700000000);
             ("narHash", JString "sha256-47DEQpj8HBSa+/TImW+5JCeuQeRkm5NMpJWZG3hSuFU=");
             ("rev", JString rev);
             ("revCount", JNumber 1);
             ("type", JString type) ] ++ more)%list.

Definition original_value (type : string) (more : list (string * value))
    : value :=
  JObject (("type", JString type) :: more).

Definition node_value (locked original : value) : value :=
  JObject [("locked", locked); ("original", original)].

Definition root_value (names : list string) : value :=
  JObject [("inputs", JObject (map (fun name => (name, JString name)) names))].

Definition lock_value (version : Z) (nodes : list (string * value)) : value :=
  JObject [ ("nodes", JObject nodes);
            ("root", JString "root");
            ("version", JNumber version) ].

Definition foo_bar : list (string * value) :=
  [("owner", JString "foo"); ("repo", JString "bar")].

(** A github input, [foo/bar] on branch [main], pinned at [abc123]. *)
Definition github_node : value :=
  node_value (locked_value "github" "abc123" foo_bar)
             (original_value "github" (foo_bar ++ [("ref", JString "main")])%list).

Definition github_lock : value :=
  lock_value 7 [ ("root", root_value ["nixpkgs"]); ("nixpkgs", github_node) ].

(** The same graph in a format of version 6. *)
Definition version6_lock : value :=
  lock_value 6 [ ("root", root_value ["nixpkgs"]); ("nixpkgs", github_node) ].

(** A tarball input of a Forgejo instance. *)
Definition tarball_url : string :=
  "https://example.org/o/r/archive/deadbeef.tar.gz".

Definition tarball_node (type : string) : value :=
  node_value (locked_value type "deadbeef"
                [("ref", JString "main"); ("url", JString tarball_url)])
             (original_value type [("url", JString tarball_url)]).

Definition tarball_lock : value :=
  lock_value 7 [ ("root", root_value ["forge"]);
                 ("forge", tarball_node "tarball") ].

(** The tarball graph with the type of its input renamed to [git]. *)
Definition renamed_tarball_lock : value :=
  lock_value 7 [ ("root", root_value ["forge"]); ("forge", tarball_node "git") ].

(** A gitlab input of a self-hosted instance. *)
Definition hosted : list (string * value) :=
  [ ("host", JString "gitlab.example.org");
    ("owner", JString "o"); ("repo", JString "r") ].

Definition host_lock : value :=
  lock_value 7
    [ ("root", root_value ["lib"]);
      ("lib", node_value (locked_value "gitlab" "abc123" hosted)
                         (original_value "gitlab" hosted)) ].

(** An input pinned as [git] and declared as [github]. *)
Definition git_locked_lock : value :=
  lock_value 7
    [ ("root", root_value ["src"]);
      ("src", node_value
                (locked_value "git" "abc123"
                   [("url", JString "https://example.org/foo/bar.git")])
                (original_value "github" foo_bar)) ].

(** A graph whose root entry declares itself and carries the two records
    of a github input. *)
Definition root_with_records_lock : value :=
  lock_value 7
    [ ("root", JObject [ ("inputs", JObject [("root", JString "root")]);
                         ("locked", locked_value "github" "abc123" foo_bar);
                         ("original", original_value "github" foo_bar) ]) ].

(** A graph whose [nodes] have no entry named [root]. *)
Definition rootless_lock : value :=
  lock_value 7 [ ("nixpkgs", github_node) ].

(** An input resolved through the registry, next to a github input. *)
Definition indirect_lock : value :=
  lock_value 7
    [ ("root", root_value ["flake-utils"; "nixpkgs"]);
      ("flake-utils", node_value
                        (locked_value "github" "def456"
                           [("owner", JString "numtide");
                            ("repo", JString "flake-utils")])
                        (original_value "indirect"
                           [("id", JString "flake-utils")]));
      ("nixpkgs", github_node) ].

(** An empty entry next to a github input. *)
Definition empty_lock : value :=
  lock_value 7
    [ ("root", root_value ["systems"; "nixpkgs"]);
      ("systems", JObject []);
      ("nixpkgs", github_node) ].

(** A git input declared without a url. *)
Definition git_no_url_lock : value :=
  lock_value 7
    [ ("root", root_value ["src"]);
      ("src", node_value (locked_value "git" "abc123" [])
                         (original_value "git" [("ref", JString "main")])) ].

(** An input of an input: [systems] is locked for [flake-utils], and the
    root does not declare it. *)
Definition transitive_lock : value :=
  lock_value 7
    [ ("root", root_value ["flake-utils"]);
      ("flake-utils",
       JObject [ ("inputs", JObject [("systems", JString "systems")]);
                 ("locked", locked_value "github" "def456"
                              [("owner", JString "numtide");
                               ("repo", JString "flake-utils")]);
                 ("original", original_value "github"
                                [("owner", JString "numtide");
                                 ("repo", JString "flake-utils")]) ]);
      ("systems",
       node_value (locked_value "github" "da67096"
                     [("owner", JString "nix-systems");
                      ("repo", JString "default")])
                  (original_value "github"
                     [("owner", JString "nix-systems");
                      ("repo", JString "default")])) ].

(** A root entry without inputs. *)
Definition no_inputs_lock : value :=
  lock_value 7 [ ("root", JObject []); ("nixpkgs", github_node) ].

(** A github input declared without owner nor repo. *)
Definition ownerless_lock : value :=
  lock_value 7
    [ ("root", root_value ["lib"]);
      ("lib", node_value (locked_value "github" "abc123" [])
                         (original_value "github" [])) ].

(** A node named as a property of [Object.prototype], which the root does
    not list among its inputs. *)
Definition inherited_name_lock : value :=
  lock_value 7
    [ ("root", root_value ["nixpkgs"]);
      ("nixpkgs", github_node);
      ("constructor", github_node) ].

(** A graph whose [root] field names the github input [main]. *)
Definition renamed_root_lock : value :=
  JObject [ ("nodes", JObject [ ("root", root_value ["main"]);
                                ("main", github_node) ]);
            ("root", JString "main");
            ("version", JNumber 7) ].


(** An input resolved through the registry, next to a github input, in a
    graph whose [nodes] have no entry named [root]. *)
Definition rootless_indirect_lock : value :=
  lock_value 7
    [ ("flake-utils", node_value
                        (locked_value "github" "def456"
                           [("owner", JString "numtide");
                            ("repo", JString "flake-utils")])
                        (original_value "indirect"
                           [("id", JString "flake-utils")]));
      ("nixpkgs", github_node) ].

(** An empty entry next to a github input, in a graph whose [nodes] have no
    entry named [root]. *)
Definition rootless_empty_lock : value :=
  lock_value 7 [ ("systems", JObject []); ("nixpkgs", github_node) ].

End Examples.

(** ** The link to the root, and the errors of a log *)

(** [rootInputs && depName in rootInputs], with [rootInputs] the inputs of
    the entry named [root]: whether the root declares the node named
    [depName]. No root entry, or one without inputs, declares nothing. *)
Definition root_declares (flakeLock : NixFlakeLock) (depName : string) : bool :=
  match get "root" (nodes flakeLock) with
  | Some rootNode =>
      match inputs rootNode with
      | Some rootInputs => in_op depName rootInputs
      | None => false
      end
  | None => false
  end.

Definition is_error (e : Logger.entry) : bool :=
  match fst e with
  | Logger.error => true
  | _ => false
  end.

(** The number of entries of a log at the level of errors. *)
Definition errors (log : list Logger.entry) : nat :=
  length (filter is_error log).

(** * Properties *)

(** ** Objects and schema *)

Lemma get_of_key {A : Type} (key : string) (props : list (string * A)) :
  In key (Object_keys props) -> exists v, get key props = Some v.
Proof.
  induction props as [|[k v] rest IH]; simpl; [tauto|].
  intros [->|Hin].
  - rewrite String.eqb_refl. eauto.
  - destruct (String.eqb key k); eauto.
Qed.

Lemma get_some_key {A : Type} (key : string) (props : list (string * A)) v :
  get key props = Some v -> In key (Object_keys props).
Proof.
  induction props as [|[k w] rest IH]; simpl; [discriminate|].
  destruct (String.eqb_spec key k) as [->|]; auto.
Qed.

Lemma mem_In (key : string) (keys : list string) :
  mem key keys = true <-> In key keys.
Proof.
  unfold mem. rewrite existsb_exists. split.
  - intros (k & Hin & Heq). apply String.eqb_eq in Heq. now subst.
  - intros Hin. exists key. split; [assumption|apply String.eqb_refl].
Qed.

Lemma own_key_in_op {A : Type} (key : string) (props : list (string * A)) :
  mem key (Object_keys props) = true -> in_op key props = true.
Proof. unfold in_op. now intros ->. Qed.

(** ** The run monad *)

Lemma for_of_cons {S : Type} (body : string -> S -> M S) (key : string)
    (rest : list string) (s : S) (log : list Logger.entry) :
  for_of (key :: rest) body s log =
  match body key s log with
  | (Normal s', log') => for_of rest body s' log'
  | (Throw e, log') => (Throw e, log')
  end.
Proof. reflexivity. Qed.

(** A loop whose every turn returns, appending what [f] gives for the key. *)
Lemma for_of_returns {A : Type} (body : string -> list A -> M (list A))
    (f : string -> list A) (P : string -> Prop) :
  (forall key s log, P key ->
     exists log', body key s log = (Normal (s ++ f key)%list, log')) ->
  forall keys s log, Forall P keys ->
    exists log', for_of keys body s log
                 = (Normal (s ++ flat_map f keys)%list, log').
Proof.
  intros Hbody keys. induction keys as [|k rest IH]; intros s log HP.
  - exists log. simpl. now rewrite app_nil_r.
  - inversion HP as [|? ? Hk Hrest]; subst.
    destruct (Hbody k s log Hk) as (log1 & E1).
    destruct (IH (s ++ f k)%list log1 Hrest) as (log2 & E2).
    exists log2. rewrite for_of_cons, E1, E2. simpl.
    now rewrite <- app_assoc.
Qed.

(** A loop that returned has appended what [f] gives for each key, whenever
    each turn that returns does. *)
Lemma for_of_returned {A : Type} (body : string -> list A -> M (list A))
    (f : string -> list A) :
  (forall key s log s' log',
     body key s log = (Normal s', log') -> s' = (s ++ f key)%list) ->
  forall keys s log s' log',
    for_of keys body s log = (Normal s', log') ->
    s' = (s ++ flat_map f keys)%list.
Proof.
  intros Hbody keys. induction keys as [|k rest IH]; intros s log s' log' E.
  - simpl in E. unfold ret in E. inversion E. now rewrite app_nil_r.
  - rewrite for_of_cons in E.
    destruct (body k s log) as [[s1|e] log1] eqn:E1; [|discriminate].
    apply Hbody in E1. apply IH in E. subst. simpl.
    now rewrite <- app_assoc.
Qed.

(** Unfolds the monad and splits on the scrutinee of the first [match] or
    [if] of the goal or of hypothesis [H]. *)
Ltac run_unfold :=
  unfold bind, ret, throw, logger, prop in *; simpl in *.

Ltac split_goal :=
  match goal with
  | |- context [match ?x with _ => _ end] =>
      lazymatch x with
      | context [match _ with _ => _ end] => fail
      | _ => destruct x eqn:?
      end
  end.

Ltac split_hyp H :=
  match type of H with
  | context [match ?x with _ => _ end] =>
      lazymatch x with
      | context [match _ with _ => _ end] => fail
      | _ => destruct x eqn:?
      end
  end.

Ltac returned H :=
  repeat (split_hyp H; run_unfold; try discriminate H);
  inversion H; subst; clear H.

Ltac unnegb :=
  repeat match goal with
  | H : negb ?b = true |- _ => apply negb_true_iff in H; try rewrite H in *
  | H : negb ?b = false |- _ => apply negb_false_iff in H; try rewrite H in *
  end.

Ltac known :=
  repeat match goal with
  | E : ?x = Some _ |- context [?x] => rewrite E
  | E : ?x = None |- context [?x] => rewrite E
  end.

(** ** The loop of the sibling-file variant *)

Section SiblingLoop.

Variable datasource_id : string.
Variable flakeLock : NixFlakeLock.

Let body := Sibling.loop_body datasource_id flakeLock.
Let record := Sibling.node_record datasource_id flakeLock.

Lemma sibling_turn_returned key deps log deps' log' :
  body key deps log = (Normal deps', log') ->
  deps' = (deps ++ yield (record key))%list.
Proof.
  unfold body, record, Sibling.loop_body, Sibling.node_record, Sibling.walk.
  intros H. run_unfold.
  returned H; simpl; unnegb; simpl; known; simpl; now rewrite ?app_nil_r.
Qed.

Lemma sibling_turn_returns key deps log rootNode :
  get "root" (nodes flakeLock) = Some rootNode ->
  In key (Object_keys (nodes flakeLock)) ->
  exists log', body key deps log
               = (Normal (deps ++ yield (record key))%list, log').
Proof.
  intros Hroot Hkey. apply get_of_key in Hkey as (node & Hnode).
  unfold body, record, Sibling.loop_body, Sibling.node_record, Sibling.walk.
  run_unfold. rewrite Hroot, Hnode. simpl.
  repeat (split_goal; simpl; unnegb; known); rewrite ?app_nil_r; eauto.
Qed.

End SiblingLoop.

(** ** The loop of the inline variant *)

Section InlineLoop.

Variable datasource_id : string.
Variable flakeLock : NixFlakeLock.

Let body := Inline.loop_body datasource_id flakeLock.
Let record := Inline.node_record datasource_id flakeLock.

Lemma inline_turn_returns key deps log :
  In key (Object_keys (nodes flakeLock)) ->
  exists log', body key deps log
               = (Normal (deps ++ yield (record key))%list, log').
Proof.
  intros Hkey. apply get_of_key in Hkey as (node & Hnode).
  unfold body, record, Inline.loop_body, Inline.node_record, Inline.walk.
  run_unfold. rewrite Hnode. simpl.
  repeat (split_goal; simpl; known); rewrite ?app_nil_r; eauto.
Qed.

End InlineLoop.

(** ** What the runs return *)

Lemma In_yield {A : Type} (f : string -> option A) (keys : list string) (a : A) :
  In a (flat_map (fun key => yield (f key)) keys) <->
  exists key, In key keys /\ f key = Some a.
Proof.
  rewrite in_flat_map. split; intros (key & Hkey & H); exists key; split; auto.
  - destruct (f key); simpl in H; [|tauto]. destruct H; [now subst|tauto].
  - rewrite H. now left.
Qed.

Lemma emitted_result (l : list PackageDependency) (log : list Logger.entry) :
  emitted (result l log) = l.
Proof. now destruct l. Qed.

Lemma returns_result (l : list PackageDependency) (log : list Logger.entry) :
  returns (result l log).
Proof. unfold returns. destruct l; simpl; eauto. Qed.

Section Runs.

Variable datasource_id : string.
Variable file : string.
Variable data : value.
Variable log : list Logger.entry.

(** The sibling-file variant on a graph holding a ["root"] entry: it
    returns, and its records are those of the nodes, in the order of the
    keys. *)
Lemma sibling_run flakeLock rootNode :
  safeParse data = Some flakeLock ->
  get "root" (nodes flakeLock) = Some rootNode ->
  returns (Sibling.extractPackageFile datasource_id file data log) /\
  emitted (Sibling.extractPackageFile datasource_id file data log)
  = flat_map (fun key => yield (Sibling.node_record datasource_id flakeLock key))
      (Object_keys (nodes flakeLock)).
Proof.
  intros Hparse Hroot. unfold Sibling.extractPackageFile.
  run_unfold. rewrite Hparse.
  destruct (for_of_returns
              (Sibling.loop_body datasource_id flakeLock)
              (fun key => yield (Sibling.node_record datasource_id flakeLock key))
              (fun key => In key (Object_keys (nodes flakeLock)))
              (fun key s l H => sibling_turn_returns datasource_id flakeLock
                                  key s l rootNode Hroot H)
              (Object_keys (nodes flakeLock)) []
              (log ++ [(Logger.trace, Logger.nix_extractPackageFile file)])%list)
    as (log' & E).
  { apply Forall_forall. auto. }
  rewrite E. simpl.
  split; [apply returns_result|apply emitted_result].
Qed.

(** Every record the sibling-file variant emits is the record of a node of
    the parsed graph. *)
Lemma sibling_emitted d :
  In d (emitted (Sibling.extractPackageFile datasource_id file data log)) ->
  exists flakeLock key,
    safeParse data = Some flakeLock /\
    In key (Object_keys (nodes flakeLock)) /\
    Sibling.node_record datasource_id flakeLock key = Some d.
Proof.
  unfold Sibling.extractPackageFile. run_unfold.
  destruct (safeParse data) as [flakeLock|] eqn:Hparse; [|simpl; tauto].
  destruct (for_of _ _ _ _) as [[l|e] log'] eqn:E; [|simpl; tauto].
  apply (for_of_returned _
           (fun key => yield (Sibling.node_record datasource_id flakeLock key))
           (sibling_turn_returned datasource_id flakeLock)) in E.
  simpl in E. subst l. rewrite emitted_result.
  intros Hin. apply In_yield in Hin as (key & Hkey & Hrec). eauto.
Qed.

(** The inline variant on a graph of version 7. *)
Lemma inline_run flakeLock :
  safeParse data = Some flakeLock ->
  version flakeLock = 7%Z ->
  returns (Inline.extractPackageFile datasource_id data file log) /\
  emitted (Inline.extractPackageFile datasource_id data file log)
  = flat_map (fun key => yield (Inline.node_record datasource_id flakeLock key))
      (Object_keys (nodes flakeLock)).
Proof.
  intros Hparse Hversion. unfold Inline.extractPackageFile.
  run_unfold. rewrite Hparse, Hversion. simpl.
  destruct (for_of_returns
              (Inline.loop_body datasource_id flakeLock)
              (fun key => yield (Inline.node_record datasource_id flakeLock key))
              (fun key => In key (Object_keys (nodes flakeLock)))
              (fun key s l H => inline_turn_returns datasource_id flakeLock
                                  key s l H)
              (Object_keys (nodes flakeLock)) []
              (log ++ [(Logger.trace, Logger.nix_extractPackageFile file)])%list)
    as (log' & E).
  { apply Forall_forall. auto. }
  rewrite E. simpl.
  split; [apply returns_result|apply emitted_result].
Qed.

(** Every record the inline variant emits is the record of a node of the
    parsed graph. *)
Lemma inline_emitted d :
  In d (emitted (Inline.extractPackageFile datasource_id data file log)) ->
  exists flakeLock key,
    safeParse data = Some flakeLock /\
    version flakeLock = 7%Z /\
    In key (Object_keys (nodes flakeLock)) /\
    Inline.node_record datasource_id flakeLock key = Some d.
Proof.
  unfold Inline.extractPackageFile. run_unfold.
  destruct (safeParse data) as [flakeLock|] eqn:Hparse; [|simpl; tauto].
  destruct (negb (version flakeLock =? 7)%Z) eqn:Hv; [simpl; tauto|].
  apply negb_false_iff, Z.eqb_eq in Hv.
  destruct (inline_run flakeLock Hparse Hv) as (_ & E). intros Hin.
  unfold Inline.extractPackageFile in E. run_unfold.
  rewrite Hparse, Hv in E. simpl in E. rewrite E in Hin.
  apply In_yield in Hin as (key & Hkey & Hrec). eauto 6.
Qed.

End Runs.

(** ** The classifiers *)

Lemma sibling_classify_depName ds key l o d :
  Sibling.classify ds key l o = Some d -> depName d = key.
Proof.
  unfold Sibling.classify. intros H.
  repeat (split_hyp H; try discriminate H); inversion H; reflexivity.
Qed.

Lemma inline_classify_depName ds key l o d :
  Inline.classify ds key l o = Some d -> depName d = key.
Proof.
  unfold Inline.classify. intros H.
  repeat (split_hyp H; try discriminate H); inversion H; reflexivity.
Qed.

(** ** What the guards let through *)

Lemma sibling_walk_inv flakeLock key l o :
  Sibling.walk flakeLock key = Some (l, o) ->
  (key =? "root") = false /\
  (exists rootNode rootInputs,
     get "root" (nodes flakeLock) = Some rootNode /\
     inputs rootNode = Some rootInputs /\
     in_op key rootInputs = true) /\
  (exists node,
     get key (nodes flakeLock) = Some node /\
     locked node = Some l /\
     original node = Some o) /\
  (original_type o =? "indirect") = false.
Proof.
  unfold Sibling.walk. intros H.
  repeat (split_hyp H; try discriminate H). inversion H; subst.
  repeat split; eauto.
Qed.

Lemma inline_walk_inv flakeLock key l o :
  Inline.walk flakeLock key = Some (l, o) ->
  (key =? "root") = false /\
  (exists node,
     get key (nodes flakeLock) = Some node /\
     locked node = Some l /\
     original node = Some o) /\
  (original_type o =? "indirect") = false.
Proof.
  unfold Inline.walk. intros H.
  repeat (split_hyp H; try discriminate H). inversion H; subst.
  repeat split; eauto.
Qed.

Lemma sibling_walk_key flakeLock key l o :
  Sibling.walk flakeLock key = Some (l, o) ->
  In key (Object_keys (nodes flakeLock)).
Proof.
  intros H. apply sibling_walk_inv in H as (_ & _ & (node & Hnode & _) & _).
  eapply get_some_key; eassumption.
Qed.


Lemma sibling_record_inv ds flakeLock key d :
  Sibling.node_record ds flakeLock key = Some d ->
  depName d = key /\
  exists l o,
    Sibling.walk flakeLock key = Some (l, o) /\
    Sibling.classify ds key l o = Some d.
Proof.
  unfold Sibling.node_record. intros H.
  destruct (Sibling.walk flakeLock key) as [[l o]|]; [|discriminate].
  split; [eapply sibling_classify_depName; eassumption|eauto].
Qed.

Lemma inline_record_inv ds flakeLock key d :
  Inline.node_record ds flakeLock key = Some d ->
  depName d = key /\
  exists l o,
    Inline.walk flakeLock key = Some (l, o) /\
    Inline.classify ds key l o = Some d.
Proof.
  unfold Inline.node_record. intros H.
  destruct (Inline.walk flakeLock key) as [[l o]|]; [|discriminate].
  split; [eapply inline_classify_depName; eassumption|eauto].
Qed.

(** ** Sound and complete: the records of a run are those of its nodes *)

Section Walk.

Variable datasource_id : string.
Variable file : string.
Variable data : value.
Variable log : list Logger.entry.

Lemma sibling_sound d :
  In d (emitted (Sibling.extractPackageFile datasource_id file data log)) ->
  exists flakeLock l o,
    safeParse data = Some flakeLock /\
    Sibling.walk flakeLock (depName d) = Some (l, o) /\
    Sibling.classify datasource_id (depName d) l o = Some d.
Proof.
  intros Hin. apply sibling_emitted in Hin as (fl & key & Hparse & _ & Hrec).
  apply sibling_record_inv in Hrec as (<- & l & o & H).
  exists fl, l, o. tauto.
Qed.

Lemma sibling_complete flakeLock rootNode key l o d :
  safeParse data = Some flakeLock ->
  get "root" (nodes flakeLock) = Some rootNode ->
  Sibling.walk flakeLock key = Some (l, o) ->
  Sibling.classify datasource_id key l o = Some d ->
  In d (emitted (Sibling.extractPackageFile datasource_id file data log)).
Proof.
  intros Hparse Hroot Hwalk Hd.
  destruct (sibling_run datasource_id file data log flakeLock rootNode
              Hparse Hroot) as (_ & ->).
  apply In_yield. exists key. split.
  - eapply sibling_walk_key; eassumption.
  - unfold Sibling.node_record. now rewrite Hwalk.
Qed.

Lemma inline_sound d :
  In d (emitted (Inline.extractPackageFile datasource_id data file log)) ->
  exists flakeLock l o,
    safeParse data = Some flakeLock /\
    version flakeLock = 7%Z /\
    Inline.walk flakeLock (depName d) = Some (l, o) /\
    Inline.classify datasource_id (depName d) l o = Some d.
Proof.
  intros Hin. apply inline_emitted in Hin as (fl & key & Hparse & Hv & _ & Hrec).
  apply inline_record_inv in Hrec as (<- & l & o & H).
  exists fl, l, o. tauto.
Qed.


End Walk.

(** ** What the schema lets through *)

Lemma get_In {A : Type} (key : string) (props : list (string * A)) (a : A) :
  get key props = Some a -> In (key, a) props.
Proof.
  induction props as [|[k v] rest IH]; simpl; [discriminate|].
  destruct (String.eqb_spec key k) as [->|]; intros H.
  - inversion H. now left.
  - right. auto.
Qed.

Lemma entries_parsed {A : Type} (schema : value -> option A) props es k a :
  Zod.entries schema props = Some es ->
  In (k, a) es -> exists v, schema v = Some a.
Proof.
  revert es. induction props as [|[k' v] rest IH]; intros es; simpl.
  - intros H. inversion H. simpl. tauto.
  - unfold Zod.bind. destruct (schema v) as [a'|] eqn:Ev; [|discriminate].
    destruct (Zod.entries schema rest) as [tl|]; [|discriminate].
    intros H. inversion H; subst. intros [Heq|Hin].
    + inversion Heq; subst. eauto.
    + eapply IH; eauto.
Qed.

Lemma record_parsed {A : Type} (schema : value -> option A) v es k a :
  Zod.record schema v = Some es ->
  get k es = Some a -> exists v', schema v' = Some a.
Proof.
  destruct v; simpl; try discriminate. unfold Zod.bind.
  destruct (Zod.entries schema props) as [es'|] eqn:E; [|discriminate].
  intros H Hget. inversion H; subst. apply get_In in Hget.
  apply filter_In in Hget as (Hin & _). eapply entries_parsed; eauto.
Qed.

Ltac parsed H :=
  unfold Zod.object, Zod.bind, Zod.required, Zod.optional in H;
  repeat (split_hyp H; simpl in H; try discriminate H);
  inversion H; subst; clear H.

Lemma enum_parsed values v s :
  Zod.enum values v = Some s -> mem s values = true.
Proof.
  destruct v; simpl; try discriminate.
  destruct (mem s0 values) eqn:E; [|discriminate]. intros H. now inversion H; subst.
Qed.

Lemma locked_type_parsed v l :
  LockedInput_schema v = Some l ->
  mem (locked_type l) ["git"; "github"; "gitlab"; "indirect"; "sourcehut"]
  = true.
Proof.
  unfold LockedInput_schema. intros H.
  parsed H; cbn [locked_type]; eapply enum_parsed; eassumption.
Qed.

(** In a graph the schema accepts, the type a node is locked with is one of
    the five the enumeration lists. *)
Lemma accepted_locked_type data flakeLock key node l :
  safeParse data = Some flakeLock ->
  get key (nodes flakeLock) = Some node ->
  locked node = Some l ->
  mem (locked_type l) ["git"; "github"; "gitlab"; "indirect"; "sourcehut"]
  = true.
Proof.
  unfold safeParse, NixFlakeLock_schema. intros H Hnode Hl. parsed H.
  simpl in Hnode.
  eapply record_parsed in Hnode as (v' & Hv); [|eassumption].
  unfold NixInput_schema in Hv. parsed Hv; simpl in Hl; try discriminate Hl.
  all: inversion Hl; subst.
  all: match goal with
  | E : option_map Some (LockedInput_schema ?x) = Some (Some _) |- _ =>
      destruct (LockedInput_schema x) eqn:El; [|discriminate E];
      inversion E; subst
  end.
  all: eapply locked_type_parsed; eassumption.
Qed.

(** ** The tarball pattern *)

Section Pattern.

Import RegEx.

Lemma literal_app (lit s : string) : literal lit (lit ++ s) = Some s.
Proof.
  induction lit as [|c lit IH]; simpl; [reflexivity|].
  now rewrite Ascii.eqb_refl.
Qed.

Lemma no_slash_app (run rest : string) :
  all not_slash run = true ->
  no_slash (run ++ String "/" rest) = (run, String "/" rest).
Proof.
  induction run as [|c run IH]; simpl; [reflexivity|].
  intros H. apply andb_true_iff in H as (Hc & Hrun).
  now rewrite Hc, (IH Hrun).
Qed.

Lemma segment_app (run rest : string) :
  run <> "" ->
  all not_slash run = true ->
  segment (run ++ "/" ++ rest) = Some (run, rest).
Proof.
  intros Hne Hrun. unfold segment. simpl.
  rewrite (no_slash_app run rest Hrun).
  destruct run; [congruence|reflexivity].
Qed.

Lemma length_app (a b : string) :
  String.length (a ++ b) = String.length a + String.length b.
Proof. induction a; simpl; congruence. Qed.

Lemma substring_head (a b : string) :
  substring 0 (String.length a) (a ++ b) = a.
Proof.
  induction a as [|c a IH]; simpl.
  - now destruct b.
  - now rewrite IH.
Qed.

Lemma substring_tail (a b : string) :
  substring (String.length a) (String.length b) (a ++ b) = b.
Proof.
  induction a as [|c a IH]; simpl; [|assumption].
  induction b as [|c b IH]; simpl; [reflexivity|]. now rewrite IH.
Qed.

Lemma rev_tar_gz_app (rev : string) :
  rev <> "" ->
  all dot rev = true ->
  rev_tar_gz (rev ++ ".tar.gz") = Some rev.
Proof.
  intros Hne Hdot. unfold rev_tar_gz.
  rewrite length_app. change (String.length ".tar.gz") with 7.
  replace (String.length rev + 7 - 7) with (String.length rev) by lia.
  destruct (Nat.ltb_spec (String.length rev + 7) 8) as [Hlt|_].
  - destruct rev; [congruence|simpl in Hlt; lia].
  - rewrite substring_head.
    change 7 with (String.length ".tar.gz") at 1. rewrite substring_tail.
    now rewrite Hdot.
Qed.

(** An address of the shape the pattern describes is rewritten to the
    address of its repository. *)
Lemma replace_archive (domain owner repo rev : string) :
  domain <> "" -> all not_slash domain = true ->
  owner <> "" -> all not_slash owner = true ->
  repo <> "" -> all not_slash repo = true ->
  rev <> "" -> all dot rev = true ->
  replace_lockableHTTPTarballProtocol
    ("https://" ++ domain ++ "/" ++ owner ++ "/" ++ repo ++ "/archive/"
       ++ rev ++ ".tar.gz")
  = "https://" ++ domain ++ "/" ++ owner ++ "/" ++ repo.
Proof.
  intros Hd Hd' Ho Ho' Hr Hr' Hv Hv'.
  unfold replace_lockableHTTPTarballProtocol, lockableHTTPTarballProtocol.
  rewrite literal_app, (segment_app domain _ Hd Hd'),
    (segment_app owner _ Ho Ho').
  change (repo ++ "/archive/" ++ rev ++ ".tar.gz")
    with (repo ++ "/" ++ "archive/" ++ rev ++ ".tar.gz").
  rewrite (segment_app repo _ Hr Hr'), literal_app,
    (rev_tar_gz_app rev Hv Hv').
  reflexivity.
Qed.

Lemma literal_inv (lit s rest : string) :
  literal lit s = Some rest -> s = lit ++ rest.
Proof.
  revert s. induction lit as [|c lit IH]; intros s; simpl.
  - congruence.
  - destruct s as [|c' s]; [discriminate|].
    destruct (Ascii.eqb_spec c c') as [->|]; [|discriminate].
    intros H. now rewrite (IH _ H).
Qed.

Lemma no_slash_inv (s run tl : string) :
  no_slash s = (run, tl) -> s = run ++ tl /\ all not_slash run = true.
Proof.
  revert run tl. induction s as [|c s IH]; intros run tl; simpl.
  - intros H. inversion H. auto.
  - destruct (not_slash c) eqn:Hc.
    + destruct (no_slash s) as [run' tl'] eqn:E. intros H. inversion H; subst.
      destruct (IH _ _ eq_refl) as (-> & Hrun). simpl. now rewrite Hc.
    + intros H. inversion H. auto.
Qed.

Lemma segment_inv (s run rest : string) :
  segment s = Some (run, rest) ->
  s = run ++ "/" ++ rest /\ run <> "" /\ all not_slash run = true.
Proof.
  unfold segment. destruct (no_slash s) as [run' tl] eqn:E.
  apply no_slash_inv in E as (-> & Hrun).
  destruct run' as [|c run']; [discriminate|].
  destruct (literal "/" tl) as [tl'|] eqn:El; [|discriminate].
  apply literal_inv in El. intros H. inversion H; subst.
  repeat split; [discriminate|assumption].
Qed.

Lemma substring_split (k : nat) (s : string) :
  k <= String.length s ->
  s = substring 0 k s ++ substring k (String.length s - k) s.
Proof.
  revert s. induction k as [|k IH]; intros s Hk.
  - rewrite Nat.sub_0_r. simpl.
    replace (substring 0 0 s) with "" by now destruct s.
    simpl. clear Hk. induction s as [|c s IHs]; simpl; congruence.
  - destruct s as [|c s]; simpl in *; [lia|].
    rewrite <- IH by lia. reflexivity.
Qed.

Lemma dot_literal_inv (lit s rest : string) :
  dot_literal lit s = Some rest ->
  exists c, s = String c (lit ++ rest) /\ dot c = true.
Proof.
  destruct s as [|c s]; simpl; [discriminate|].
  destruct (dot c) eqn:Hc; [|discriminate].
  intros H. apply literal_inv in H. subst. eauto.
Qed.

Lemma rev_tar_gz_inv (s rev : string) :
  rev_tar_gz s = Some rev ->
  exists c1 c2,
    s = rev ++ String c1 ("tar" ++ String c2 "gz") /\
    rev <> "" /\ all dot rev = true /\ dot c1 = true /\ dot c2 = true.
Proof.
  unfold rev_tar_gz.
  destruct (Nat.ltb_spec (String.length s) 8) as [|Hlen]; [discriminate|].
  pose proof (substring_split (String.length s - 7) s ltac:(lia)) as Hsplit.
  replace (String.length s - (String.length s - 7)) with 7 in Hsplit by lia.
  destruct (dot_literal "tar" _) as [s'|] eqn:E1; [|discriminate].
  destruct (dot_literal "gz" s') as [[|]|] eqn:E2; try discriminate.
  destruct (all dot _) eqn:Hrev; [|discriminate].
  apply dot_literal_inv in E1 as (c1 & E1 & H1), E2 as (c2 & E2 & H2).
  intros H. inversion H; subst rev. rewrite E1, E2 in Hsplit.
  exists c1, c2. repeat split; auto.
  intros Hempty. rewrite Hempty in Hsplit. simpl in Hsplit.
  rewrite Hsplit in Hlen. simpl in Hlen. lia.
Qed.

(** What the pattern matches, and the groups it captures. *)
Lemma lockableHTTPTarballProtocol_inv (s : string) (g : groups) :
  lockableHTTPTarballProtocol s = Some g ->
  exists c1 c2,
    s = "https://" ++ domain g ++ "/" ++ owner g ++ "/" ++ repo g
          ++ "/archive/" ++ rev g ++ String c1 ("tar" ++ String c2 "gz") /\
    (domain g <> "" /\ all not_slash (domain g) = true) /\
    (owner g <> "" /\ all not_slash (owner g) = true) /\
    (repo g <> "" /\ all not_slash (repo g) = true) /\
    (rev g <> "" /\ all dot (rev g) = true) /\
    dot c1 = true /\ dot c2 = true.
Proof.
  unfold lockableHTTPTarballProtocol.
  destruct (literal "https://" s) as [s1|] eqn:E0; [|discriminate].
  destruct (segment s1) as [[d s2]|] eqn:E1; [|discriminate].
  destruct (segment s2) as [[o s3]|] eqn:E2; [|discriminate].
  destruct (segment s3) as [[r s4]|] eqn:E3; [|discriminate].
  destruct (literal "archive/" s4) as [s5|] eqn:E4; [|discriminate].
  destruct (rev_tar_gz s5) as [v|] eqn:E5; [|discriminate].
  intros H. inversion H; subst g; simpl.
  apply literal_inv in E0, E4.
  apply segment_inv in E1 as (-> & Hd), E2 as (-> & Ho), E3 as (-> & Hr).
  apply rev_tar_gz_inv in E5 as (c1 & c2 & -> & Hv & Hv' & H1 & H2).
  subst. exists c1, c2. repeat split; tauto.
Qed.

End Pattern.

(** ** The tarball case *)

(** The [tarball] case of the [switch] rewrites the address of the archive
    and takes the reference from [locked]. *)
Lemma tarball_case ds key l o domain owner repo rev :
  locked_type l = "tarball" ->
  original_url o
  = Some ("https://" ++ domain ++ "/" ++ owner ++ "/" ++ repo ++ "/archive/"
            ++ rev ++ ".tar.gz") ->
  domain <> "" -> RegEx.all RegEx.not_slash domain = true ->
  owner <> "" -> RegEx.all RegEx.not_slash owner = true ->
  repo <> "" -> RegEx.all RegEx.not_slash repo = true ->
  rev <> "" -> RegEx.all RegEx.dot rev = true ->
  Sibling.classify ds key l o
  = Some {| depName := key;
            currentValue := locked_ref l;
            currentDigest := locked_rev l;
            replaceString := locked_rev l;
            datasource := ds;
            packageName :=
              Some ("https://" ++ domain ++ "/" ++ owner ++ "/" ++ repo) |}.
Proof.
  intros Htype Hurl Hd Hd' Ho Ho' Hr Hr' Hv Hv'.
  unfold Sibling.classify. rewrite Htype, Hurl.
  cbv beta iota delta [String.eqb Ascii.eqb Bool.eqb nullish].
  now rewrite replace_archive.
Qed.

Lemma tarball_case_example ds key l o :
  locked_type l = "tarball" ->
  original_url o = Some Examples.tarball_url ->
  option_map packageName (Sibling.classify ds key l o)
  = Some (Some "https://example.org/o/r").
Proof.
  intros Htype Hurl.
  rewrite (tarball_case ds key l o "example.org" "o" "r" "deadbeef");
    (reflexivity || discriminate || assumption).
Qed.

(** No node of an accepted graph gets to that case. *)
Lemma tarball_case_unreachable data flakeLock key l o :
  safeParse data = Some flakeLock ->
  Sibling.walk flakeLock key = Some (l, o) ->
  (locked_type l =? "tarball") = false.
Proof.
  intros Hparse Hwalk.
  apply sibling_walk_inv in Hwalk as (_ & _ & (node & Hnode & Hl & _) & _).
  pose proof (accepted_locked_type _ _ _ _ _ Hparse Hnode Hl) as Hmem.
  apply mem_In in Hmem. simpl in Hmem.
  destruct Hmem as [<-|[<-|[<-|[<-|[<-|[]]]]]]; reflexivity.
Qed.

(** C1. A lock file whose input [forge] is locked with type [tarball], its
    original url being [https://example.org/o/r/archive/deadbeef.tar.gz]:
    the schema rejects the file, since [InputType] does not list [tarball],
    and the sibling-file variant logs the error and returns [null]; no
    record is emitted for the input. *)
Theorem tarball_lock_rejected ds file log :
  safeParse Examples.tarball_lock = None /\
  Sibling.extractPackageFile ds file Examples.tarball_lock log
  = (Normal None,
     (log ++ [ (Logger.trace, Logger.nix_extractPackageFile file);
               (Logger.error, Logger.invalid_flake_lock) ])%list).
Proof.
  split; [reflexivity|].
  unfold Sibling.extractPackageFile, bind, logger, ret. simpl.
  now rewrite <- app_assoc.
Qed.

(** The same file is accepted once the type reads [git]: the type alone has
    it rejected. *)
Lemma renamed_tarball_lock_accepted :
  safeParse Examples.renamed_tarball_lock <> None.
Proof. discriminate. Qed.

(** ** The host *)

(** The three hosted cases build the name on the fixed host of the
    provider. *)
Lemma hosted_cases ds key l o d :
  Sibling.classify ds key l o = Some d ->
  (locked_type l = "github" ->
   packageName d = Some ("https://github.com/" ++ interpolate (original_owner o)
                         ++ "/" ++ interpolate (original_repo o))) /\
  (locked_type l = "gitlab" ->
   packageName d = Some ("https://gitlab.com/" ++ interpolate (original_owner o)
                         ++ "/" ++ interpolate (original_repo o))) /\
  (locked_type l = "sourcehut" ->
   packageName d = Some ("https://git.sr.ht/" ++ interpolate (original_owner o)
                         ++ "/" ++ interpolate (original_repo o))).
Proof.
  unfold Sibling.classify. intros H.
  repeat split; intros Htype; rewrite Htype in H; simpl in H;
    inversion H; reflexivity.
Qed.

(** C2. A lock file whose gitlab input [lib] is declared with
    [host = gitlab.example.org], owner [o] and repo [r]: the record of the
    sibling-file variant is named [https://gitlab.com/o/r]; the host of the
    original record is lost, the schema of [OriginalInput] having no such
    key. *)
Theorem host_lock_default_host ds file log :
  Sibling.extractPackageFile ds file Examples.host_lock log
  = (Normal (Some {| deps :=
       [ {| depName := "lib";
            currentValue := None;
            currentDigest := "abc123";
            replaceString := "abc123";
            datasource := ds;
            packageName := Some "https://gitlab.com/o/r" |} ] |}),
     (log ++ [ (Logger.trace, Logger.nix_extractPackageFile file) ])%list).
Proof. reflexivity. Qed.

(** ** The branch taken *)

(** In the sibling-file variant the type of [locked] decides the case. *)
Lemma sibling_case_by_locked_type ds key l o o' :
  Sibling.classify ds key l o = None <-> Sibling.classify ds key l o' = None.
Proof.
  unfold Sibling.classify.
  repeat match goal with
         | |- context [if ?b then _ else _] => destruct b
         end; split; intros H; (discriminate H || reflexivity).
Qed.

Lemma sibling_git_case ds key l o :
  locked_type l = "git" ->
  Sibling.classify ds key l o
  = Some {| depName := key;
            currentValue := original_ref o;
            currentDigest := locked_rev l;
            replaceString := locked_rev l;
            datasource := ds;
            packageName := original_url o |}.
Proof. intros H. unfold Sibling.classify. now rewrite H. Qed.

(** C3. A lock file whose input [src] is locked with type [git] and
    declared with type [github]: the inline variant takes none of its
    branches, the third one testing the type of [original]; it logs the type
    [git] as unknown and returns [null]. *)
Theorem git_locked_lock_skipped ds file log :
  Inline.extractPackageFile ds Examples.git_locked_lock file log
  = (Normal None,
     (log ++ [ (Logger.trace, Logger.nix_extractPackageFile file);
               (Logger.debug, Logger.unknown_type "git") ])%list).
Proof.
  unfold Inline.extractPackageFile, bind, logger, ret. simpl.
  now rewrite <- app_assoc.
Qed.

(** The sibling-file variant emits the git record for the same file. *)
Lemma git_locked_lock_sibling ds file log :
  emitted (Sibling.extractPackageFile ds file Examples.git_locked_lock log)
  = [ {| depName := "src";
         currentValue := None;
         currentDigest := "abc123";
         replaceString := "abc123";
         datasource := ds;
         packageName := None |} ].
Proof. reflexivity. Qed.

(** ** A graph without its root *)

(** Without an entry named [root], the first turn of the loop reads
    [inputs] off [undefined]. *)
Lemma sibling_throws_without_root ds file data log flakeLock :
  safeParse data = Some flakeLock ->
  get "root" (nodes flakeLock) = None ->
  nodes flakeLock <> [] ->
  Sibling.extractPackageFile ds file data log
  = (Throw TypeError,
     (log ++ [ (Logger.trace, Logger.nix_extractPackageFile file) ])%list).
Proof.
  intros Hparse Hroot Hnodes. unfold Sibling.extractPackageFile.
  run_unfold. rewrite Hparse.
  destruct (nodes flakeLock) as [|[k node] rest] eqn:E; [congruence|].
  simpl in *. unfold Sibling.loop_body. rewrite E. simpl.
  destruct (String.eqb_spec k "root") as [->|Hk].
  - simpl in Hroot. discriminate.
  - run_unfold. destruct (String.eqb_spec "root" k); [congruence|].
    now rewrite Hroot.
Qed.

(** C4. A lock file the schema accepts, whose [nodes] hold the github input
    [nixpkgs] and no entry named [root]: the sibling-file variant throws a
    [TypeError] on [flakeLock.nodes['root'].inputs] and returns nothing. *)
Theorem rootless_lock_throws ds file log :
  safeParse Examples.rootless_lock <> None /\
  Sibling.extractPackageFile ds file Examples.rootless_lock log
  = (Throw TypeError,
     (log ++ [ (Logger.trace, Logger.nix_extractPackageFile file) ])%list).
Proof. split; [discriminate|reflexivity]. Qed.

(** ** Nodes that get to the classifier *)

Lemma sibling_walk_intro flakeLock key rootNode rootInputs node l o :
  (key =? "root") = false ->
  get "root" (nodes flakeLock) = Some rootNode ->
  inputs rootNode = Some rootInputs ->
  in_op key rootInputs = true ->
  get key (nodes flakeLock) = Some node ->
  locked node = Some l ->
  original node = Some o ->
  (original_type o =? "indirect") = false ->
  Sibling.walk flakeLock key = Some (l, o).
Proof.
  intros Hkey Hroot Hinputs Hin Hnode Hl Ho Hind. unfold Sibling.walk.
  now rewrite Hkey, Hroot, Hinputs, Hin, Hnode, Hl, Ho, Hind.
Qed.


(** The inline variant never throws. *)
Lemma inline_returns ds data file log :
  returns (Inline.extractPackageFile ds data file log).
Proof.
  destruct (safeParse data) as [fl|] eqn:Hparse.
  - destruct (Z.eqb_spec (version fl) 7) as [Hv|Hv].
    + eapply inline_run; eassumption.
    + unfold Inline.extractPackageFile. run_unfold. rewrite Hparse.
      apply Z.eqb_neq in Hv. rewrite Hv. simpl. unfold returns. simpl. eauto.
  - unfold Inline.extractPackageFile. run_unfold. rewrite Hparse.
    unfold returns. simpl. eauto.
Qed.

(** ** The root *)

(** C5. Whatever the input, no record of either variant is named by the
    key [root]: the node under that key is never turned into a dependency,
    whatever it holds. The key is the one the loop compares with; the
    [root] field of the graph is not read. *)
Theorem root_never_emitted ds file data log :
  Forall (fun d => depName d <> "root")
    (emitted (Sibling.extractPackageFile ds file data log)) /\
  Forall (fun d => depName d <> "root")
    (emitted (Inline.extractPackageFile ds data file log)).
Proof.
  split; apply Forall_forall; intros d Hin Hname.
  - apply sibling_sound in Hin as (fl & l & o & _ & Hwalk & _).
    apply sibling_walk_inv in Hwalk as (Hkey & _).
    rewrite Hname in Hkey. discriminate.
  - apply inline_sound in Hin as (fl & l & o & _ & _ & Hwalk & _).
    apply inline_walk_inv in Hwalk as (Hkey & _).
    rewrite Hname in Hkey. discriminate.
Qed.

(** The node that the [root] field names is not left out when its key is
    not [root]: here the field names [main], and both variants emit the
    record of [main]. *)
Lemma root_field_counterexample :
  exists flakeLock d,
    safeParse Examples.renamed_root_lock = Some flakeLock /\
    In d (emitted (Sibling.extractPackageFile "git-refs" "flake.lock"
                     Examples.renamed_root_lock [])) /\
    In d (emitted (Inline.extractPackageFile "git-refs"
                     Examples.renamed_root_lock "flake.nix" [])) /\
    depName d = root flakeLock.
Proof.
  do 2 eexists. split; [reflexivity|].
  split; [left; reflexivity|]. split; [left; reflexivity|]. reflexivity.
Qed.

(** The root entry is left out even when it holds what a github input
    holds. *)
Lemma root_with_records_lock_empty ds file log :
  safeParse Examples.root_with_records_lock <> None /\
  fst (Sibling.extractPackageFile ds file Examples.root_with_records_lock log)
  = Normal None /\
  fst (Inline.extractPackageFile ds Examples.root_with_records_lock file log)
  = Normal None.
Proof. split; [discriminate|split; reflexivity]. Qed.

(** ** The version *)

(** C6. The inline variant, on a graph the schema accepts whose version is
    not 7, returns [null]; it logs its entry and the unsupported version and
    nothing else: no turn of the loop is taken, nothing is classified, no
    record is pushed. *)
Theorem unsupported_version_no_dependencies ds data file log flakeLock :
  safeParse data = Some flakeLock ->
  version flakeLock <> 7%Z ->
  Inline.extractPackageFile ds data file log
  = (Normal None,
     (log ++ [ (Logger.trace, Logger.nix_extractPackageFile file);
               (Logger.debug, Logger.unsupported_version) ])%list).
Proof.
  intros Hparse Hv. unfold Inline.extractPackageFile. run_unfold.
  rewrite Hparse. apply Z.eqb_neq in Hv. rewrite Hv. simpl.
  now rewrite <- app_assoc.
Qed.

Lemma unsupported_version_witness :
  exists flakeLock,
    safeParse Examples.version6_lock = Some flakeLock /\
    version flakeLock <> 7%Z /\
    Inline.extractPackageFile "git-refs" Examples.version6_lock "flake.nix" []
    = (Normal None,
       [ (Logger.trace, Logger.nix_extractPackageFile "flake.nix");
         (Logger.debug, Logger.unsupported_version) ]).
Proof.
  eexists. split; [reflexivity|]. split; [discriminate|].
  apply (unsupported_version_no_dependencies "git-refs" Examples.version6_lock
           "flake.nix" [] _ eq_refl).
  discriminate.
Defined.

(** ** Every node that gets to the classifier has its record *)

Lemma sibling_classified ds file data log flakeLock key l o d :
  safeParse data = Some flakeLock ->
  Sibling.walk flakeLock key = Some (l, o) ->
  Sibling.classify ds key l o = Some d ->
  In d (emitted (Sibling.extractPackageFile ds file data log)).
Proof.
  intros Hparse Hwalk Hd.
  destruct (sibling_walk_inv _ _ _ _ Hwalk)
    as (_ & (rootNode & _ & Hroot & _) & _).
  eapply sibling_complete; eassumption.
Qed.

Lemma sibling_not_named ds file data log flakeLock n :
  safeParse data = Some flakeLock ->
  Sibling.walk flakeLock n = None ->
  Forall (fun d => depName d <> n)
    (emitted (Sibling.extractPackageFile ds file data log)).
Proof.
  intros Hparse Hwalk. apply Forall_forall. intros d Hin Hname.
  apply sibling_sound in Hin as (fl & l & o & Hparse' & Hwalk' & _).
  congruence.
Qed.

Lemma inline_not_named ds file data log flakeLock n :
  safeParse data = Some flakeLock ->
  Inline.walk flakeLock n = None ->
  Forall (fun d => depName d <> n)
    (emitted (Inline.extractPackageFile ds data file log)).
Proof.
  intros Hparse Hwalk. apply Forall_forall. intros d Hin Hname.
  apply inline_sound in Hin as (fl & l & o & Hparse' & _ & Hwalk' & _).
  congruence.
Qed.

(** ** Indirect inputs *)

Lemma indirect_not_walked flakeLock n node o :
  get n (nodes flakeLock) = Some node ->
  original node = Some o ->
  original_type o = "indirect" ->
  Sibling.walk flakeLock n = None /\ Inline.walk flakeLock n = None.
Proof.
  intros Hnode Ho Hind. unfold Sibling.walk, Inline.walk.
  rewrite Hnode, Ho, Hind. simpl.
  repeat match goal with
         | |- context [match ?x with _ => _ end] => destruct x
         end; auto.
Qed.

(** The turn of an indirect node hands [deps] over as it got them: in the
    inline variant always, in the sibling-file variant once the root entry
    is found. *)
Lemma indirect_turn ds flakeLock n node o deps log :
  get n (nodes flakeLock) = Some node ->
  original node = Some o ->
  original_type o = "indirect" ->
  fst (Inline.loop_body ds flakeLock n deps log) = Normal deps /\
  (forall rootNode,
     get "root" (nodes flakeLock) = Some rootNode ->
     fst (Sibling.loop_body ds flakeLock n deps log) = Normal deps).
Proof.
  intros Hnode Ho Hind. split; [|intros rootNode Hroot].
  - unfold Inline.loop_body. run_unfold. rewrite Hnode, Ho, Hind. simpl.
    repeat (split_goal; simpl); reflexivity.
  - unfold Sibling.loop_body. run_unfold. rewrite Hroot, Hnode, Ho, Hind.
    simpl. repeat (split_goal; simpl); reflexivity.
Qed.

(** An indirect node has no record, in either variant. *)
Lemma indirect_no_record ds file data log flakeLock n node o :
  safeParse data = Some flakeLock ->
  get n (nodes flakeLock) = Some node ->
  original node = Some o ->
  original_type o = "indirect" ->
  Forall (fun d => depName d <> n)
    (emitted (Sibling.extractPackageFile ds file data log)) /\
  Forall (fun d => depName d <> n)
    (emitted (Inline.extractPackageFile ds data file log)).
Proof.
  intros Hparse Hnode Ho Hind.
  destruct (indirect_not_walked _ _ _ _ Hnode Ho Hind) as (Hs & Hi).
  split; [eapply sibling_not_named|eapply inline_not_named]; eassumption.
Qed.

(** C7. A lock file the schema accepts, whose [nodes] hold the indirect
    input [flake-utils] and the github input [nixpkgs] and no entry named
    [root]: the turn of [flake-utils] in the sibling-file variant throws a
    [TypeError] on [flakeLock.nodes['root'].inputs], ahead of the test of
    the type; the walk does not go on and [nixpkgs] has no record. The
    inline variant skips [flake-utils] and emits the record of
    [nixpkgs]. *)
Theorem rootless_indirect_lock_throws ds file log :
  safeParse Examples.rootless_indirect_lock <> None /\
  Sibling.extractPackageFile ds file Examples.rootless_indirect_lock log
  = (Throw TypeError,
     (log ++ [ (Logger.trace, Logger.nix_extractPackageFile file) ])%list) /\
  Inline.extractPackageFile ds Examples.rootless_indirect_lock file log
  = (Normal (Some {| deps :=
       [ {| depName := "nixpkgs";
            currentValue := Some "main";
            currentDigest := "abc123";
            replaceString := "abc123";
            datasource := ds;
            packageName := Some "https://github.com/foo/bar" |} ] |}),
     (log ++ [ (Logger.trace, Logger.nix_extractPackageFile file) ])%list).
Proof. split; [discriminate|split; reflexivity]. Qed.

(** ** Empty entries *)

Lemma empty_not_walked flakeLock n node :
  get n (nodes flakeLock) = Some node ->
  locked node = None \/ original node = None ->
  Sibling.walk flakeLock n = None /\ Inline.walk flakeLock n = None.
Proof.
  intros Hnode Hempty. unfold Sibling.walk, Inline.walk. rewrite Hnode.
  destruct Hempty as [H|H]; rewrite H;
    repeat match goal with
           | |- context [match ?x with _ => _ end] => destruct x
           end; auto.
Qed.

(** A node without [locked] or without [original] has no record, in either
    variant. *)
Lemma empty_no_record ds file data log flakeLock n node :
  safeParse data = Some flakeLock ->
  get n (nodes flakeLock) = Some node ->
  locked node = None \/ original node = None ->
  Forall (fun d => depName d <> n)
    (emitted (Sibling.extractPackageFile ds file data log)) /\
  Forall (fun d => depName d <> n)
    (emitted (Inline.extractPackageFile ds data file log)).
Proof.
  intros Hparse Hnode Hempty.
  destruct (empty_not_walked _ _ _ Hnode Hempty) as (Hs & Hi).
  split; [eapply sibling_not_named|eapply inline_not_named]; eassumption.
Qed.

(** C8. A lock file the schema accepts, whose [nodes] hold the empty entry
    [systems] and the github input [nixpkgs] and no entry named [root]: the
    turn of [systems] in the sibling-file variant throws a [TypeError] on
    [flakeLock.nodes['root'].inputs], ahead of the test of [locked] and
    [original]; the extraction aborts and [nixpkgs] has no record. The
    inline variant logs the empty entry, skips it and emits the record of
    [nixpkgs]. *)
Theorem rootless_empty_lock_throws ds file log :
  safeParse Examples.rootless_empty_lock <> None /\
  Sibling.extractPackageFile ds file Examples.rootless_empty_lock log
  = (Throw TypeError,
     (log ++ [ (Logger.trace, Logger.nix_extractPackageFile file) ])%list) /\
  Inline.extractPackageFile ds Examples.rootless_empty_lock file log
  = (Normal (Some {| deps :=
       [ {| depName := "nixpkgs";
            currentValue := Some "main";
            currentDigest := "abc123";
            replaceString := "abc123";
            datasource := ds;
            packageName := Some "https://github.com/foo/bar" |} ] |}),
     (log ++ [ (Logger.trace, Logger.nix_extractPackageFile file);
               (Logger.debug,
                Logger.empty_flake_input
                  {| inputs := None; locked := None; original := None |}) ])%list).
Proof.
  split; [discriminate|]. split; [reflexivity|].
  unfold Inline.extractPackageFile, bind, logger, ret. simpl.
  now rewrite <- app_assoc.
Qed.

(** ** The github record *)




(** ** A git input without a url *)

(** C10. In a graph the schema accepts, a node locked with type [git] that
    gets to the classifier of the sibling-file variant (it is not the root,
    root's inputs declare it, it is not declared as [indirect]) and whose
    original record has no [url] is not skipped: its record is in the
    output, named after its key, with [currentDigest] and [replaceString]
    the locked revision, and no [packageName]. *)
Theorem git_without_url ds file data log flakeLock rootNode rootInputs n node l o :
  safeParse data = Some flakeLock ->
  (n =? "root") = false ->
  get "root" (nodes flakeLock) = Some rootNode ->
  inputs rootNode = Some rootInputs ->
  mem n (Object_keys rootInputs) = true ->
  get n (nodes flakeLock) = Some node ->
  locked node = Some l ->
  original node = Some o ->
  (original_type o =? "indirect") = false ->
  locked_type l = "git" ->
  original_url o = None ->
  In {| depName := n;
        currentValue := original_ref o;
        currentDigest := locked_rev l;
        replaceString := locked_rev l;
        datasource := ds;
        packageName := None |}
     (emitted (Sibling.extractPackageFile ds file data log)).
Proof.
  intros Hparse Hn Hroot Hinputs Hdecl Hnode Hl Ho Hind Htype Hurl.
  eapply sibling_complete; try eassumption.
  - eapply sibling_walk_intro; try eassumption. now apply own_key_in_op.
  - rewrite (sibling_git_case ds n l o Htype). now rewrite Hurl.
Qed.

Lemma git_without_url_witness :
  In {| depName := "src";
        currentValue := Some "main";
        currentDigest := "abc123";
        replaceString := "abc123";
        datasource := "git-refs";
        packageName := None |}
     (emitted (Sibling.extractPackageFile "git-refs" "flake.lock"
                 Examples.git_no_url_lock [])).
Proof.
  exact (git_without_url "git-refs" "flake.lock" Examples.git_no_url_lock []
           _ _ _ "src" _ _ _
           eq_refl eq_refl eq_refl eq_refl eq_refl eq_refl eq_refl eq_refl
           eq_refl eq_refl eq_refl).
Defined.

(** * Further properties of the schema *)

Lemma entries_rejected {A : Type} (schema : value -> option A) props k v :
  In (k, v) props -> schema v = None -> Zod.entries schema props = None.
Proof.
  intros Hin Hv. induction props as [|[k' v'] rest IH]; simpl; [destruct Hin|].
  unfold Zod.bind. destruct Hin as [Heq|Hin].
  - inversion Heq; subst. now rewrite Hv.
  - destruct (schema v'); [|reflexivity]. now rewrite (IH Hin).
Qed.

Lemma entries_keys {A : Type} (schema : value -> option A) props es :
  Zod.entries schema props = Some es -> Object_keys es = Object_keys props.
Proof.
  revert es. induction props as [|[k v] rest IH]; intros es; simpl.
  - intros H. now inversion H.
  - unfold Zod.bind. destruct (schema v); [|discriminate].
    destruct (Zod.entries schema rest) as [tl|]; [|discriminate].
    intros H. inversion H; subst. simpl. f_equal. now apply IH.
Qed.

Lemma keys_filter {A : Type} (p : string -> bool) (props : list (string * A)) :
  Object_keys (filter (fun e => p (fst e)) props)
  = filter p (Object_keys props).
Proof.
  induction props as [|[k v] rest IH]; simpl; [reflexivity|].
  destruct (p k); simpl; now rewrite IH.
Qed.

Lemma get_skip {A : Type} (key k : string) (v : A) pre post :
  (key =? k) = false ->
  get key (pre ++ (k, v) :: post)%list = get key (pre ++ post)%list.
Proof.
  intros Hk. induction pre as [|[k' v'] pre IH]; simpl.
  - now rewrite Hk.
  - now rewrite IH.
Qed.

Lemma nodes_rejected props nodes_props key v :
  get "nodes" props = Some (JObject nodes_props) ->
  In (key, v) nodes_props ->
  NixInput_schema v = None ->
  safeParse (JObject props) = None.
Proof.
  intros Hnodes Hin Hv. unfold safeParse, NixFlakeLock_schema. simpl.
  rewrite Hnodes. simpl. unfold Zod.bind at 1.
  now rewrite (entries_rejected _ _ _ _ Hin Hv).
Qed.

(** X1. One node the schema of a node rejects has the whole lock file
    rejected, and neither variant emits a record, be the other nodes as
    they may. *)
Theorem invalid_node_rejects_graph ds file log props nodes_props key v :
  get "nodes" props = Some (JObject nodes_props) ->
  In (key, v) nodes_props ->
  NixInput_schema v = None ->
  safeParse (JObject props) = None /\
  fst (Sibling.extractPackageFile ds file (JObject props) log) = Normal None /\
  fst (Inline.extractPackageFile ds (JObject props) file log) = Normal None.
Proof.
  intros Hnodes Hin Hv.
  pose proof (nodes_rejected _ _ _ _ Hnodes Hin Hv) as Hparse.
  split; [exact Hparse|].
  unfold Sibling.extractPackageFile, Inline.extractPackageFile.
  run_unfold. now rewrite Hparse.
Qed.

Lemma invalid_node_rejects_graph_witness :
  fst (Sibling.extractPackageFile "git-refs" "flake.lock"
         (Examples.lock_value 7
            [ ("root", Examples.root_value ["nixpkgs"; "broken"]);
              ("nixpkgs", Examples.github_node);
              ("broken", JObject [("locked", JString "abc123")]) ]) [])
  = Normal None.
Proof.
  unfold Examples.lock_value.
  eapply (invalid_node_rejects_graph "git-refs" "flake.lock" [] _ _ "broken"
            (JObject [("locked", JString "abc123")])).
  - reflexivity.
  - right. right. left. reflexivity.
  - reflexivity.
Defined.

Lemma locked_schema_requires props field :
  In field ["lastModified"; "narHash"; "rev"; "revCount"; "type"] ->
  get field props = None ->
  LockedInput_schema (JObject props) = None.
Proof.
  intros Hfield Hmissing.
  unfold LockedInput_schema, Zod.object, Zod.bind, Zod.required.
  simpl in Hfield.
  destruct Hfield as [<-|[<-|[<-|[<-|[<-|[]]]]]]; rewrite Hmissing;
    repeat match goal with
           | |- context [match ?x with _ => _ end] => destruct x
           end; reflexivity.
Qed.

(** X2. A lock file in which the [locked] record of some node lacks one of
    [lastModified], [narHash], [rev], [revCount] and [type] is rejected. *)
Theorem locked_requires props nodes_props name node_props locked_props field :
  get "nodes" props = Some (JObject nodes_props) ->
  In (name, JObject node_props) nodes_props ->
  get "locked" node_props = Some (JObject locked_props) ->
  In field ["lastModified"; "narHash"; "rev"; "revCount"; "type"] ->
  get field locked_props = None ->
  safeParse (JObject props) = None.
Proof.
  intros Hnodes Hin Hlocked Hfield Hmissing.
  apply (nodes_rejected _ _ _ _ Hnodes Hin).
  unfold NixInput_schema, Zod.object, Zod.bind.
  destruct (Zod.optional _ (get "inputs" node_props)); [|reflexivity].
  rewrite Hlocked. unfold Zod.optional at 1.
  now rewrite (locked_schema_requires _ _ Hfield Hmissing).
Qed.

Lemma locked_requires_witness :
  safeParse
    (Examples.lock_value 7
       [ ("root", Examples.root_value ["nixpkgs"]);
         ("nixpkgs",
          JObject
            [ ("locked",
               JObject [ ("lastModified", JNumber 1700000000);
                         ("narHash", JString "sha256-AAAA");
                         ("owner", JString "foo");
                         ("repo", JString "bar");
                         ("rev", JString "abc123");
                         ("type", JString "github") ]);
              ("original", Examples.original_value "github" Examples.foo_bar) ]) ])
  = None.
Proof.
  unfold Examples.lock_value.
  eapply (locked_requires _ _ "nixpkgs" _ _ "revCount").
  - reflexivity.
  - right. left. reflexivity.
  - reflexivity.
  - right. right. right. left. reflexivity.
  - reflexivity.
Defined.

(** X3. On an input the schema rejects, each variant returns [null] and
    logs, after its entry, the one message [invalid flake.lock file]: the
    sibling-file variant at the level of errors, the inline variant at the
    level of debugging. *)
Theorem rejected_input ds file data log :
  safeParse data = None ->
  Sibling.extractPackageFile ds file data log
  = (Normal None,
     (log ++ [ (Logger.trace, Logger.nix_extractPackageFile file);
               (Logger.error, Logger.invalid_flake_lock) ])%list) /\
  Inline.extractPackageFile ds data file log
  = (Normal None,
     (log ++ [ (Logger.trace, Logger.nix_extractPackageFile file);
               (Logger.debug, Logger.invalid_flake_lock) ])%list).
Proof.
  intros Hparse.
  unfold Sibling.extractPackageFile, Inline.extractPackageFile.
  run_unfold. rewrite Hparse. simpl. now rewrite <- !app_assoc.
Qed.

(** What [readLocalFile] gives for a missing file, and the text of a file,
    are no objects. *)
Lemma rejected_input_witness :
  safeParse JNull = None /\
  Sibling.extractPackageFile "git-refs" "flake.lock" JNull []
  = (Normal None,
     [ (Logger.trace, Logger.nix_extractPackageFile "flake.lock");
       (Logger.error, Logger.invalid_flake_lock) ]) /\
  Inline.extractPackageFile "git-refs" JNull "flake.nix" []
  = (Normal None,
     [ (Logger.trace, Logger.nix_extractPackageFile "flake.nix");
       (Logger.debug, Logger.invalid_flake_lock) ]).
Proof.
  split; [reflexivity|].
  split.
  - exact (proj1 (rejected_input "git-refs" "flake.lock" JNull [] eq_refl)).
  - exact (proj2 (rejected_input "git-refs" "flake.nix" JNull [] eq_refl)).
Defined.

Ltac skip_key H :=
  simpl in H;
  repeat match type of H with
         | (?a || ?b)%bool = false =>
             let H1 := fresh in
             apply orb_false_iff in H as (H1 & H);
             rewrite String.eqb_sym in H1
         end;
  repeat match goal with
         | E : (?key =? ?k) = false |- context [get ?key (_ ++ (?k, _) :: _)%list] =>
             rewrite (get_skip key k _ _ _ E)
         end.

(** X4. A key the schema of an object does not declare is dropped: the
    object is parsed as it is without the key. This holds of the four
    objects of the schema. *)
Theorem undeclared_key_dropped (k : string) (v : value)
    (pre post : list (string * value)) :
  (mem k ["host"; "lastModified"; "narHash"; "owner"; "repo"; "ref"; "rev";
          "revCount"; "type"; "url"] = false ->
   LockedInput_schema (JObject (pre ++ (k, v) :: post))
   = LockedInput_schema (JObject (pre ++ post))) /\
  (mem k ["owner"; "repo"; "ref"; "type"; "url"] = false ->
   OriginalInput_schema (JObject (pre ++ (k, v) :: post))
   = OriginalInput_schema (JObject (pre ++ post))) /\
  (mem k ["inputs"; "locked"; "original"] = false ->
   NixInput_schema (JObject (pre ++ (k, v) :: post))
   = NixInput_schema (JObject (pre ++ post))) /\
  (mem k ["nodes"; "root"; "version"] = false ->
   safeParse (JObject (pre ++ (k, v) :: post))
   = safeParse (JObject (pre ++ post))).
Proof.
  repeat split; intros H;
    unfold safeParse, NixFlakeLock_schema, NixInput_schema,
      OriginalInput_schema, LockedInput_schema, Zod.object;
    skip_key H; reflexivity.
Qed.

(** The [host] of an original record is such a key. *)
Lemma undeclared_key_dropped_witness :
  OriginalInput_schema
    (JObject [ ("type", JString "gitlab");
               ("host", JString "gitlab.example.org");
               ("owner", JString "o"); ("repo", JString "r") ])
  = OriginalInput_schema
      (JObject [ ("type", JString "gitlab");
                 ("owner", JString "o"); ("repo", JString "r") ]).
Proof.
  exact (proj1 (proj2 (undeclared_key_dropped "host"
                         (JString "gitlab.example.org")
                         [("type", JString "gitlab")]
                         [("owner", JString "o"); ("repo", JString "r")]))
           eq_refl).
Defined.

(** X5. The nodes of a lock file the schema accepts are named as the
    entries of [nodes] in the file are, in the same order, less the entry
    [__proto__]. *)
Theorem parsed_node_names props nodes_props flakeLock :
  get "nodes" props = Some (JObject nodes_props) ->
  safeParse (JObject props) = Some flakeLock ->
  Object_keys (nodes flakeLock)
  = filter (fun k => negb (k =? "__proto__")) (Object_keys nodes_props).
Proof.
  intros Hnodes. unfold safeParse, NixFlakeLock_schema, Zod.object.
  rewrite Hnodes. simpl. unfold Zod.bind.
  destruct (Zod.entries NixInput_schema nodes_props) as [es|] eqn:E;
    [|discriminate].
  destruct (Zod.required Zod.string_ (get "root" props)); [|discriminate].
  destruct (Zod.required Zod.number (get "version" props)); [|discriminate].
  intros H. inversion H; subst. simpl.
  rewrite (keys_filter (fun k => negb (k =? "__proto__"))).
  now rewrite (entries_keys _ _ _ E).
Qed.

Lemma parsed_node_names_witness :
  exists flakeLock,
    safeParse
      (JObject [ ("nodes", JObject [ ("root", JObject []);
                                     ("b", JObject []);
                                     ("__proto__", JObject []);
                                     ("a", JObject []) ]);
                 ("root", JString "root");
                 ("version", JNumber 7) ])
    = Some flakeLock /\
    Object_keys (nodes flakeLock) = ["root"; "b"; "a"].
Proof.
  eexists. split; [reflexivity|].
  exact (parsed_node_names
           [ ("nodes", JObject [ ("root", JObject []);
                                 ("b", JObject []);
                                 ("__proto__", JObject []);
                                 ("a", JObject []) ]);
             ("root", JString "root");
             ("version", JNumber 7) ]
           [ ("root", JObject []); ("b", JObject []);
             ("__proto__", JObject []); ("a", JObject []) ]
           _ eq_refl eq_refl).
Defined.

Lemma original_type_parsed v o :
  OriginalInput_schema v = Some o ->
  mem (original_type o) ["git"; "github"; "gitlab"; "indirect"; "sourcehut"]
  = true.
Proof.
  unfold OriginalInput_schema. intros H.
  parsed H; cbn [original_type]; eapply enum_parsed; eassumption.
Qed.

Lemma accepted_original_type data flakeLock key node o :
  safeParse data = Some flakeLock ->
  get key (nodes flakeLock) = Some node ->
  original node = Some o ->
  mem (original_type o) ["git"; "github"; "gitlab"; "indirect"; "sourcehut"]
  = true.
Proof.
  unfold safeParse, NixFlakeLock_schema. intros H Hnode Ho. parsed H.
  simpl in Hnode.
  eapply record_parsed in Hnode as (v' & Hv); [|eassumption].
  unfold NixInput_schema in Hv. parsed Hv; simpl in Ho; try discriminate Ho.
  all: inversion Ho; subst.
  all: match goal with
  | E : option_map Some (OriginalInput_schema ?x) = Some (Some _) |- _ =>
      destruct (OriginalInput_schema x) eqn:El; [|discriminate E];
      inversion E; subst
  end.
  all: eapply original_type_parsed; eassumption.
Qed.

(** X6. In a lock file the schema accepts, the type of every [locked]
    record and of every [original] record is one of [git], [github],
    [gitlab], [indirect] and [sourcehut]. *)
Theorem accepted_types data flakeLock key node :
  safeParse data = Some flakeLock ->
  get key (nodes flakeLock) = Some node ->
  (forall l, locked node = Some l ->
     In (locked_type l) ["git"; "github"; "gitlab"; "indirect"; "sourcehut"]) /\
  (forall o, original node = Some o ->
     In (original_type o) ["git"; "github"; "gitlab"; "indirect"; "sourcehut"]).
Proof.
  intros Hparse Hnode. split; intros r Hr; apply mem_In.
  - eapply accepted_locked_type; eassumption.
  - eapply accepted_original_type; eassumption.
Qed.

Lemma accepted_types_witness :
  exists flakeLock node,
    safeParse Examples.indirect_lock = Some flakeLock /\
    get "flake-utils" (nodes flakeLock) = Some node /\
    (forall l, locked node = Some l ->
       In (locked_type l) ["git"; "github"; "gitlab"; "indirect"; "sourcehut"]) /\
    (forall o, original node = Some o ->
       In (original_type o) ["git"; "github"; "gitlab"; "indirect"; "sourcehut"]).
Proof.
  do 2 eexists. split; [reflexivity|]. split; [reflexivity|].
  exact (accepted_types Examples.indirect_lock _ "flake-utils" _
           eq_refl eq_refl).
Defined.

(** * Further properties of the classifiers *)

(** X7. Which nodes the classifier drops, in a lock file the schema
    accepts. In the sibling-file variant the [default] case is taken by the
    nodes locked as [indirect], and by them only. In the inline variant the
    final [else] is taken by the nodes locked as [indirect] or as [git] whose
    declared type is not [git], and by them only. *)
Theorem dropped_by_classifier ds data flakeLock key node l o :
  safeParse data = Some flakeLock ->
  get key (nodes flakeLock) = Some node ->
  locked node = Some l ->
  original node = Some o ->
  (Sibling.classify ds key l o = None <-> locked_type l = "indirect") /\
  (Inline.classify ds key l o = None <->
   (locked_type l = "indirect" \/ locked_type l = "git") /\
   original_type o <> "git").
Proof.
  intros Hparse Hnode Hl Ho.
  pose proof (accepted_locked_type _ _ _ _ _ Hparse Hnode Hl) as Hmem.
  apply mem_In in Hmem. simpl in Hmem.
  unfold Sibling.classify, Inline.classify.
  destruct (String.eqb_spec (original_type o) "git") as [Hgit|Hgit].
  - destruct Hmem as [<-|[<-|[<-|[<-|[<-|[]]]]]]; simpl;
      (split; split; intros H; try discriminate H; try reflexivity;
       try tauto; try (destruct H as ([H|H] & _); discriminate H);
       try (destruct H as ([H|H] & ?); tauto)).
  - destruct Hmem as [<-|[<-|[<-|[<-|[<-|[]]]]]]; simpl;
      (split; split; intros H; try discriminate H; try reflexivity;
       try tauto; try (destruct H as ([H|H] & _); discriminate H)).
Qed.

Lemma dropped_by_classifier_witness :
  exists flakeLock node l o,
    safeParse Examples.git_locked_lock = Some flakeLock /\
    get "src" (nodes flakeLock) = Some node /\
    locked node = Some l /\
    original node = Some o /\
    (Sibling.classify "git-refs" "src" l o = None <->
     locked_type l = "indirect") /\
    (Inline.classify "git-refs" "src" l o = None <->
     (locked_type l = "indirect" \/ locked_type l = "git") /\
     original_type o <> "git").
Proof.
  do 4 eexists. split; [reflexivity|]. split; [reflexivity|].
  split; [reflexivity|]. split; [reflexivity|].
  exact (dropped_by_classifier "git-refs" Examples.git_locked_lock _ "src" _ _ _
           eq_refl eq_refl eq_refl eq_refl).
Defined.

Lemma sibling_classify_fields ds key l o d :
  Sibling.classify ds key l o = Some d ->
  (locked_type l =? "tarball") = false ->
  currentValue d = original_ref o /\
  currentDigest d = locked_rev l /\
  replaceString d = locked_rev l /\
  datasource d = ds.
Proof.
  unfold Sibling.classify. intros H Htar. rewrite Htar in H.
  repeat (split_hyp H; try discriminate H); inversion H; simpl; auto.
Qed.

Lemma inline_classify_fields ds key l o d :
  Inline.classify ds key l o = Some d ->
  currentValue d = original_ref o /\
  currentDigest d = locked_rev l /\
  replaceString d = locked_rev l /\
  datasource d = ds.
Proof.
  unfold Inline.classify. intros H.
  repeat (split_hyp H; try discriminate H); inversion H; simpl; auto.
Qed.

(** X8. Every record of either variant is the record of a node of the
    parsed graph that is not the root, holds both [locked] and [original],
    and is not declared as [indirect]; its [currentValue] is the [ref] of
    [original], its [currentDigest] and its [replaceString] are the [rev]
    of [locked], and its [datasource] is [GitRefsDatasource.id]. *)
Theorem emitted_record_fields ds file data log d :
  In d (emitted (Sibling.extractPackageFile ds file data log)) \/
  In d (emitted (Inline.extractPackageFile ds data file log)) ->
  exists flakeLock node l o,
    safeParse data = Some flakeLock /\
    depName d <> "root" /\
    get (depName d) (nodes flakeLock) = Some node /\
    locked node = Some l /\
    original node = Some o /\
    original_type o <> "indirect" /\
    currentValue d = original_ref o /\
    currentDigest d = locked_rev l /\
    replaceString d = locked_rev l /\
    datasource d = ds.
Proof.
  intros [Hin|Hin].
  - apply sibling_sound in Hin as (fl & l & o & Hparse & Hwalk & Hd).
    pose proof (tarball_case_unreachable _ _ _ _ _ Hparse Hwalk) as Htar.
    apply sibling_walk_inv in Hwalk
      as (Hkey & _ & (node & Hnode & Hl & Ho) & Hind).
    apply String.eqb_neq in Hkey, Hind.
    exists fl, node, l, o.
    pose proof (sibling_classify_fields _ _ _ _ _ Hd Htar). tauto.
  - apply inline_sound in Hin as (fl & l & o & Hparse & _ & Hwalk & Hd).
    apply inline_walk_inv in Hwalk as (Hkey & (node & Hnode & Hl & Ho) & Hind).
    apply String.eqb_neq in Hkey, Hind.
    exists fl, node, l, o.
    pose proof (inline_classify_fields _ _ _ _ _ Hd). tauto.
Qed.

Lemma emitted_record_fields_witness :
  let d := {| depName := "nixpkgs";
              currentValue := Some "main";
              currentDigest := "abc123";
              replaceString := "abc123";
              datasource := "git-refs";
              packageName := Some "https://github.com/foo/bar" |} in
  exists flakeLock node l o,
    safeParse Examples.github_lock = Some flakeLock /\
    depName d <> "root" /\
    get (depName d) (nodes flakeLock) = Some node /\
    locked node = Some l /\
    original node = Some o /\
    original_type o <> "indirect" /\
    currentValue d = original_ref o /\
    currentDigest d = locked_rev l /\
    replaceString d = locked_rev l /\
    datasource d = "git-refs".
Proof.
  intros d.
  apply (emitted_record_fields "git-refs" "flake.lock" Examples.github_lock []).
  left. left. reflexivity.
Defined.

(** * Further properties of the runs *)

Lemma unsupported_version_gate ds data file log flakeLock :
  safeParse data = Some flakeLock ->
  version flakeLock <> 7%Z ->
  emitted (Inline.extractPackageFile ds data file log) = [].
Proof.
  intros Hparse Hv. unfold Inline.extractPackageFile. run_unfold.
  rewrite Hparse. apply Z.eqb_neq in Hv. now rewrite Hv.
Qed.

Lemma map_depName_yield f (keys : list string) :
  (forall key d, f key = Some d -> depName d = key) ->
  map depName (flat_map (fun key => yield (f key)) keys)
  = filter (fun key => match f key with Some _ => true | None => false end)
      keys.
Proof.
  intros Hname. induction keys as [|k keys IH]; simpl; [reflexivity|].
  rewrite map_app, IH. destruct (f k) as [d|] eqn:E; simpl; [|reflexivity].
  now rewrite (Hname _ _ E).
Qed.

(** X9. The records of a run follow the order of the keys of [nodes], at
    most one for a key: their names are the keys of the parsed graph that a
    test selects, in the order of the keys. Keys that differ give names that
    differ. *)
Theorem emitted_in_key_order ds file data log flakeLock :
  safeParse data = Some flakeLock ->
  let keys := Object_keys (nodes flakeLock) in
  let sibling := emitted (Sibling.extractPackageFile ds file data log) in
  let inline := emitted (Inline.extractPackageFile ds data file log) in
  (exists p, map depName sibling = filter p keys) /\
  (exists p, map depName inline = filter p keys) /\
  (NoDup keys -> NoDup (map depName sibling) /\ NoDup (map depName inline)).
Proof.
  intros Hparse keys sibling inline.
  assert (Hs : exists p, map depName sibling = filter p keys).
  { destruct (get "root" (nodes flakeLock)) as [rootNode|] eqn:Hroot.
    - destruct (sibling_run ds file data log flakeLock rootNode Hparse Hroot)
        as (_ & E).
      eexists. unfold sibling. rewrite E. apply map_depName_yield.
      intros key d Hd. now apply sibling_record_inv in Hd.
    - exists (fun _ => false). unfold sibling.
      destruct (emitted _) as [|d rest] eqn:E; simpl.
      + clear. induction keys; simpl; auto.
      + assert (Hin : In d (emitted (Sibling.extractPackageFile ds file data log)))
          by (rewrite E; now left).
        apply sibling_sound in Hin as (fl & l & o & Hparse' & Hwalk & _).
        apply sibling_walk_inv in Hwalk as (_ & (r & ri & Hr & _) & _).
        congruence. }
  assert (Hi : exists p, map depName inline = filter p keys).
  { destruct (Z.eqb_spec (version flakeLock) 7) as [Hv|Hv].
    - destruct (inline_run ds file data log flakeLock Hparse Hv) as (_ & E).
      eexists. unfold inline. rewrite E. apply map_depName_yield.
      intros key d Hd. now apply inline_record_inv in Hd.
    - exists (fun _ => false). unfold inline.
      rewrite (unsupported_version_gate ds data file log flakeLock Hparse Hv).
      clear. induction keys; simpl; auto. }
  repeat split; try assumption.
  - destruct Hs as (p & ->). now apply NoDup_filter.
  - destruct Hi as (p & ->). now apply NoDup_filter.
Qed.

Lemma emitted_in_key_order_witness :
  exists flakeLock,
    safeParse Examples.indirect_lock = Some flakeLock /\
    let keys := Object_keys (nodes flakeLock) in
    let sibling :=
      emitted (Sibling.extractPackageFile "git-refs" "flake.lock"
                 Examples.indirect_lock []) in
    let inline :=
      emitted (Inline.extractPackageFile "git-refs" Examples.indirect_lock
                 "flake.nix" []) in
    (exists p, map depName sibling = filter p keys) /\
    (exists p, map depName inline = filter p keys) /\
    (NoDup keys -> NoDup (map depName sibling) /\ NoDup (map depName inline)).
Proof.
  eexists. split; [reflexivity|].
  exact (emitted_in_key_order "git-refs" "flake.lock" Examples.indirect_lock []
           _ eq_refl).
Defined.

Lemma result_envelope l log c :
  fst (result l log) = Normal (Some c) -> deps c <> [].
Proof.
  destruct l as [|d l]; simpl; intros H; inversion H; simpl; discriminate.
Qed.

Lemma sibling_envelope ds file data log c :
  fst (Sibling.extractPackageFile ds file data log) = Normal (Some c) ->
  deps c <> [].
Proof.
  intros H. unfold Sibling.extractPackageFile in H. run_unfold.
  destruct (safeParse data) as [fl|]; [|discriminate H].
  destruct (for_of _ _ _ _) as [[l|e] log']; [|discriminate H].
  eapply result_envelope; eassumption.
Qed.

Lemma inline_envelope ds file data log c :
  fst (Inline.extractPackageFile ds data file log) = Normal (Some c) ->
  deps c <> [].
Proof.
  intros H. unfold Inline.extractPackageFile in H. run_unfold.
  destruct (safeParse data) as [fl|]; [|discriminate H].
  destruct (negb _); [discriminate H|].
  destruct (for_of _ _ _ _) as [[l|e] log']; [|discriminate H].
  eapply result_envelope; eassumption.
Qed.

(** A run that returns without a record returns [null]. *)
Lemma returns_null {r : completion (option PackageFileContent) * list Logger.entry} :
  returns r -> emitted r = [] ->
  (forall c, fst r = Normal (Some c) -> deps c <> []) ->
  fst r = Normal None.
Proof.
  intros (a & Ha) Hemitted Henvelope. unfold emitted in Hemitted.
  rewrite Ha in *. destruct a as [c|]; [|reflexivity].
  now destruct (Henvelope c eq_refl).
Qed.

(** X10. Neither variant returns an envelope without records: the value
    returned is [null], or its [deps] are not empty. *)
Theorem never_empty_envelope ds file data log content :
  (fst (Sibling.extractPackageFile ds file data log) = Normal (Some content) ->
   deps content <> []) /\
  (fst (Inline.extractPackageFile ds data file log) = Normal (Some content) ->
   deps content <> []).
Proof.
  split; [apply sibling_envelope|apply inline_envelope].
Qed.

(** X11. The inline variant never throws. The sibling-file variant throws,
    a [TypeError], on the lock files the schema accepts whose [nodes] are
    not empty and hold no entry named [root], and on no other input. *)
Theorem throws_exactly ds file data log :
  (forall e, fst (Inline.extractPackageFile ds data file log) <> Throw e) /\
  (fst (Sibling.extractPackageFile ds file data log) = Throw TypeError <->
   exists flakeLock,
     safeParse data = Some flakeLock /\
     get "root" (nodes flakeLock) = None /\
     nodes flakeLock <> []).
Proof.
  split.
  - intros e H. destruct (inline_returns ds data file log) as (a & Ha).
    congruence.
  - split.
    + intros H. destruct (safeParse data) as [fl|] eqn:Hparse.
      * exists fl. split; [reflexivity|].
        destruct (get "root" (nodes fl)) as [rootNode|] eqn:Hroot.
        -- destruct (sibling_run ds file data log fl rootNode Hparse Hroot)
             as ((a & Ha) & _). congruence.
        -- split; [reflexivity|]. intros Hempty.
           unfold Sibling.extractPackageFile in H. run_unfold.
           rewrite Hparse, Hempty in H. simpl in H. discriminate H.
      * unfold Sibling.extractPackageFile in H. run_unfold.
        rewrite Hparse in H. discriminate H.
    + intros (fl & Hparse & Hroot & Hnodes).
      now rewrite (sibling_throws_without_root ds file data log fl
                     Hparse Hroot Hnodes).
Qed.

(** ** The link to the root *)

Lemma sibling_walk_inline flakeLock key :
  Sibling.walk flakeLock key
  = if root_declares flakeLock key then Inline.walk flakeLock key else None.
Proof.
  unfold Sibling.walk, Inline.walk, root_declares.
  destruct (key =? "root"); [now destruct (match _ with Some _ => _ | None => _ end)|].
  destruct (get "root" (nodes flakeLock)) as [rootNode|]; [|reflexivity].
  destruct (inputs rootNode) as [rootInputs|]; [|reflexivity].
  reflexivity.
Qed.

Lemma flat_map_nothing {A B : Type} (f : A -> list B) (l : list A) :
  (forall a, In a l -> f a = []) -> flat_map f l = [].
Proof.
  induction l as [|a l IH]; simpl; [reflexivity|]. intros H.
  rewrite (H a) by now left. apply IH. intros b Hb. apply H. now right.
Qed.

(** The records of the sibling-file variant on a graph the schema accepts,
    its root entry present or not. *)
Lemma sibling_records ds file data log flakeLock :
  safeParse data = Some flakeLock ->
  emitted (Sibling.extractPackageFile ds file data log)
  = flat_map (fun key => yield (Sibling.node_record ds flakeLock key))
      (Object_keys (nodes flakeLock)).
Proof.
  intros Hparse.
  destruct (get "root" (nodes flakeLock)) as [rootNode|] eqn:Hroot.
  - eapply sibling_run; eassumption.
  - rewrite flat_map_nothing.
    + destruct (emitted _) as [|d rest] eqn:E; [reflexivity|].
      assert (Hin : In d (emitted (Sibling.extractPackageFile ds file data log)))
        by (rewrite E; now left).
      apply sibling_sound in Hin as (fl & l & o & Hparse' & Hwalk & _).
      apply sibling_walk_inv in Hwalk as (_ & (r & ri & Hr & _) & _).
      congruence.
    + intros key _. unfold Sibling.node_record, Sibling.walk.
      rewrite Hroot. now destruct (key =? "root").
Qed.

(** X12. In the sibling-file variant a node that the root does not declare
    (the key is not [in] the inputs of the entry named [root], or that entry
    has no inputs) has no record. *)
Theorem undeclared_node_skipped ds file data log flakeLock n :
  safeParse data = Some flakeLock ->
  root_declares flakeLock n = false ->
  Forall (fun d => depName d <> n)
    (emitted (Sibling.extractPackageFile ds file data log)).
Proof.
  intros Hparse Hn. eapply sibling_not_named; [eassumption|].
  now rewrite sibling_walk_inline, Hn.
Qed.

Lemma undeclared_node_skipped_witness :
  exists flakeLock,
    safeParse Examples.transitive_lock = Some flakeLock /\
    root_declares flakeLock "systems" = false /\
    Forall (fun d => depName d <> "systems")
      (emitted (Sibling.extractPackageFile "git-refs" "flake.lock"
                  Examples.transitive_lock [])).
Proof.
  eexists. split; [reflexivity|]. split; [reflexivity|].
  exact (undeclared_node_skipped "git-refs" "flake.lock"
           Examples.transitive_lock [] _ "systems" eq_refl eq_refl).
Defined.

(** X13. When the entry named [root] has no inputs, the sibling-file
    variant returns [null]. *)
Theorem root_without_inputs ds file data log flakeLock rootNode :
  safeParse data = Some flakeLock ->
  get "root" (nodes flakeLock) = Some rootNode ->
  inputs rootNode = None ->
  fst (Sibling.extractPackageFile ds file data log) = Normal None.
Proof.
  intros Hparse Hroot Hinputs.
  apply returns_null.
  - eapply sibling_run; eassumption.
  - rewrite (sibling_records ds file data log flakeLock Hparse).
    apply flat_map_nothing. intros key _.
    unfold Sibling.node_record. rewrite sibling_walk_inline.
    unfold root_declares. now rewrite Hroot, Hinputs.
  - intros c. apply sibling_envelope.
Qed.

Lemma root_without_inputs_witness :
  fst (Sibling.extractPackageFile "git-refs" "flake.lock"
         Examples.no_inputs_lock [])
  = Normal None.
Proof.
  exact (root_without_inputs "git-refs" "flake.lock" Examples.no_inputs_lock []
           _ _ eq_refl eq_refl eq_refl).
Defined.

(** ** The two variants *)

Lemma classify_agree ds key l o :
  mem (locked_type l) ["git"; "github"; "gitlab"; "indirect"; "sourcehut"]
  = true ->
  locked_type l = original_type o ->
  Sibling.classify ds key l o = Inline.classify ds key l o.
Proof.
  intros Hmem Hagree. unfold Sibling.classify, Inline.classify.
  rewrite <- Hagree. apply mem_In in Hmem. simpl in Hmem.
  destruct Hmem as [<-|[<-|[<-|[<-|[<-|[]]]]]]; reflexivity.
Qed.

Lemma filter_yield {A : Type} (p : A -> bool) (o : option A) :
  filter p (yield o)
  = yield (match o with
           | Some a => if p a then Some a else None
           | None => None
           end).
Proof. destruct o as [a|]; simpl; [|reflexivity]. now destruct (p a). Qed.

Lemma filter_flat_map {A B : Type} (p : B -> bool) (f : A -> list B) l :
  filter p (flat_map f l) = flat_map (fun a => filter p (f a)) l.
Proof.
  induction l as [|a l IH]; simpl; [reflexivity|].
  now rewrite filter_app, IH.
Qed.

(** X14. On a lock file of version 7 that the schema accepts, each of whose
    nodes is declared with the type it is locked with, the records of the
    sibling-file variant are those of the inline variant that the root
    declares, in the same order. *)
Theorem sibling_is_inline_declared ds file data log flakeLock :
  safeParse data = Some flakeLock ->
  version flakeLock = 7%Z ->
  (forall key node l o,
     get key (nodes flakeLock) = Some node ->
     locked node = Some l ->
     original node = Some o ->
     locked_type l = original_type o) ->
  emitted (Sibling.extractPackageFile ds file data log)
  = filter (fun d => root_declares flakeLock (depName d))
      (emitted (Inline.extractPackageFile ds data file log)).
Proof.
  intros Hparse Hversion Hagree.
  rewrite (sibling_records ds file data log flakeLock Hparse).
  destruct (inline_run ds file data log flakeLock Hparse Hversion) as (_ & ->).
  rewrite filter_flat_map. apply flat_map_ext. intros key.
  rewrite filter_yield. f_equal.
  unfold Sibling.node_record, Inline.node_record.
  rewrite sibling_walk_inline.
  destruct (Inline.walk flakeLock key) as [[l o]|] eqn:Hwalk;
    [|now destruct (root_declares flakeLock key)].
  apply inline_walk_inv in Hwalk as (_ & (node & Hnode & Hl & Ho) & _).
  pose proof (classify_agree ds key l o
                (accepted_locked_type _ _ _ _ _ Hparse Hnode Hl)
                (Hagree _ _ _ _ Hnode Hl Ho)) as Hsame.
  destruct (Inline.classify ds key l o) as [d|] eqn:Hd.
  - rewrite (inline_classify_depName _ _ _ _ _ Hd).
    destruct (root_declares flakeLock key); [exact Hsame|reflexivity].
  - destruct (root_declares flakeLock key); [exact Hsame|reflexivity].
Qed.

Lemma sibling_is_inline_declared_witness :
  exists flakeLock,
    safeParse Examples.transitive_lock = Some flakeLock /\
    version flakeLock = 7%Z /\
    (forall key node l o,
       get key (nodes flakeLock) = Some node ->
       locked node = Some l ->
       original node = Some o ->
       locked_type l = original_type o) /\
    emitted (Sibling.extractPackageFile "git-refs" "flake.lock"
               Examples.transitive_lock [])
    = filter (fun d => root_declares flakeLock (depName d))
        (emitted (Inline.extractPackageFile "git-refs"
                    Examples.transitive_lock "flake.nix" [])).
Proof.
  eexists. split; [reflexivity|]. split; [reflexivity|].
  match goal with
  | |- ?P /\ _ => assert (Hagree : P)
  end.
  { intros key node l o Hnode Hl Ho. simpl in Hnode.
    repeat match type of Hnode with
           | context [if ?b then _ else _] => destruct b
           end;
      inversion Hnode; subst; simpl in Hl, Ho; try discriminate Hl;
      inversion Hl; inversion Ho; reflexivity. }
  split; [exact Hagree|].
  exact (sibling_is_inline_declared "git-refs" "flake.lock"
           Examples.transitive_lock [] _ eq_refl eq_refl Hagree).
Defined.

(** * Further properties of the tarball pattern *)

Section PatternLanguage.

Import RegEx.

Lemma dot_literal_app (c : ascii) (lit rest : string) :
  dot c = true -> dot_literal lit (String c (lit ++ rest)) = Some rest.
Proof. intros Hc. simpl. rewrite Hc. apply literal_app. Qed.

Lemma rev_tar_gz_suffix (rev : string) (c1 c2 : ascii) :
  rev <> "" -> all dot rev = true -> dot c1 = true -> dot c2 = true ->
  rev_tar_gz (rev ++ String c1 ("tar" ++ String c2 "gz")) = Some rev.
Proof.
  intros Hne Hdot H1 H2. unfold rev_tar_gz.
  set (suffix := String c1 ("tar" ++ String c2 "gz")).
  rewrite length_app. change (String.length suffix) with 7.
  replace (String.length rev + 7 - 7) with (String.length rev) by lia.
  destruct (Nat.ltb_spec (String.length rev + 7) 8) as [Hlt|_].
  - destruct rev; [congruence|simpl in Hlt; lia].
  - rewrite substring_head.
    change 7 with (String.length suffix) at 1. rewrite substring_tail.
    unfold suffix. rewrite (dot_literal_app c1 "tar" _ H1).
    assert (E2 : dot_literal "gz" (String c2 "gz") = Some "")
      by exact (dot_literal_app c2 "gz" "" H2).
    now rewrite E2, Hdot.
Qed.

(** X15. What [lockableHTTPTarballProtocol] matches: the strings
    [https://<domain>/<owner>/<repo>/archive/<rev>?tar?gz], where [domain],
    [owner] and [repo] are not empty and hold no slash, [rev] is not empty,
    and [rev] and the two code units written [?] (the dots of the pattern,
    which are not escaped) hold no line terminator; the groups captured are
    these four parts. *)
Theorem tarball_pattern_language (s : string) (g : groups) :
  lockableHTTPTarballProtocol s = Some g <->
  exists c1 c2,
    s = "https://" ++ domain g ++ "/" ++ owner g ++ "/" ++ repo g
          ++ "/archive/" ++ rev g ++ String c1 ("tar" ++ String c2 "gz") /\
    (domain g <> "" /\ all not_slash (domain g) = true) /\
    (owner g <> "" /\ all not_slash (owner g) = true) /\
    (repo g <> "" /\ all not_slash (repo g) = true) /\
    (rev g <> "" /\ all dot (rev g) = true) /\
    dot c1 = true /\ dot c2 = true.
Proof.
  split; [apply lockableHTTPTarballProtocol_inv|].
  intros (c1 & c2 & -> & (Hd & Hd') & (Ho & Ho') & (Hr & Hr') & (Hv & Hv')
          & H1 & H2).
  unfold lockableHTTPTarballProtocol.
  rewrite literal_app, (segment_app _ _ Hd Hd'), (segment_app _ _ Ho Ho').
  change (repo g ++ "/archive/" ++ rev g ++ String c1 ("tar" ++ String c2 "gz"))
    with (repo g ++ "/" ++ "archive/" ++ rev g
            ++ String c1 ("tar" ++ String c2 "gz")).
  rewrite (segment_app _ _ Hr Hr'), literal_app,
    (rev_tar_gz_suffix _ _ _ Hv Hv' H1 H2).
  now destruct g.
Qed.

Lemma no_slash_all (run : string) :
  all not_slash run = true -> no_slash run = (run, "").
Proof.
  induction run as [|c run IH]; simpl; [reflexivity|].
  intros H. apply andb_true_iff in H as (Hc & Hrun).
  now rewrite Hc, (IH Hrun).
Qed.

Lemma repository_not_matched (d o r : string) :
  d <> "" -> all not_slash d = true ->
  o <> "" -> all not_slash o = true ->
  all not_slash r = true ->
  lockableHTTPTarballProtocol ("https://" ++ d ++ "/" ++ o ++ "/" ++ r) = None.
Proof.
  intros Hd Hd' Ho Ho' Hr. unfold lockableHTTPTarballProtocol.
  rewrite literal_app, (segment_app _ _ Hd Hd'), (segment_app _ _ Ho Ho').
  unfold segment. rewrite (no_slash_all r Hr). now destruct r.
Qed.

(** X16. Rewriting an address twice is rewriting it once: the address of a
    repository that the replacement builds is not matched by the pattern. *)
Theorem replace_idempotent (s : string) :
  replace_lockableHTTPTarballProtocol (replace_lockableHTTPTarballProtocol s)
  = replace_lockableHTTPTarballProtocol s.
Proof.
  unfold replace_lockableHTTPTarballProtocol at 2 3.
  destruct (lockableHTTPTarballProtocol s) as [g|] eqn:E.
  - apply lockableHTTPTarballProtocol_inv in E
      as (c1 & c2 & _ & (Hd & Hd') & (Ho & Ho') & (Hr & Hr') & _).
    unfold replace_lockableHTTPTarballProtocol.
    now rewrite (repository_not_matched _ _ _ Hd Hd' Ho Ho' Hr').
  - unfold replace_lockableHTTPTarballProtocol. now rewrite E.
Qed.

End PatternLanguage.

(** * Further properties of the records *)

(** X17. [owner] and [repo] are optional in the schema, and the
    sibling-file variant does not skip a github, gitlab or sourcehut node
    that lacks them: its record is emitted, the missing parts of its name
    reading [undefined]. *)
Theorem missing_owner_and_repo ds file data log flakeLock key l o host :
  safeParse data = Some flakeLock ->
  Sibling.walk flakeLock key = Some (l, o) ->
  In (locked_type l, host)
     [ ("github", "github.com"); ("gitlab", "gitlab.com");
       ("sourcehut", "git.sr.ht") ] ->
  original_owner o = None ->
  original_repo o = None ->
  In {| depName := key;
        currentValue := original_ref o;
        currentDigest := locked_rev l;
        replaceString := locked_rev l;
        datasource := ds;
        packageName := Some ("https://" ++ host ++ "/undefined/undefined") |}
     (emitted (Sibling.extractPackageFile ds file data log)).
Proof.
  intros Hparse Hwalk Hhost Howner Hrepo.
  eapply sibling_classified; try eassumption.
  unfold Sibling.classify. rewrite Howner, Hrepo. simpl in Hhost.
  destruct Hhost as [H|[H|[H|[]]]]; injection H as Htype Hh; subst host;
    cbv zeta; rewrite <- Htype; reflexivity.
Qed.

Lemma missing_owner_and_repo_witness :
  In {| depName := "lib";
        currentValue := None;
        currentDigest := "abc123";
        replaceString := "abc123";
        datasource := "git-refs";
        packageName := Some "https://github.com/undefined/undefined" |}
     (emitted (Sibling.extractPackageFile "git-refs" "flake.lock"
                 Examples.ownerless_lock [])).
Proof.
  exact (missing_owner_and_repo "git-refs" "flake.lock" Examples.ownerless_lock
           [] _ "lib" _ _ "github.com" eq_refl eq_refl (or_introl eq_refl)
           eq_refl eq_refl).
Defined.

(** X18. The test [depName in rootInputs] also holds of the names every
    object inherits: in the sibling-file variant a node named as a property
    of [Object.prototype] gets to the classifier whether the inputs of the
    root list it or not, and its record is emitted. *)
Theorem inherited_name_passes ds file data log flakeLock rootNode rootInputs
    key node l o d :
  safeParse data = Some flakeLock ->
  get "root" (nodes flakeLock) = Some rootNode ->
  inputs rootNode = Some rootInputs ->
  In key Object_prototype_keys ->
  get key (nodes flakeLock) = Some node ->
  locked node = Some l ->
  original node = Some o ->
  (original_type o =? "indirect") = false ->
  Sibling.classify ds key l o = Some d ->
  In d (emitted (Sibling.extractPackageFile ds file data log)).
Proof.
  intros Hparse Hroot Hinputs Hkey Hnode Hl Ho Hind Hd.
  eapply sibling_complete; try eassumption.
  eapply sibling_walk_intro; try eassumption.
  - simpl in Hkey.
    repeat (destruct Hkey as [<-|Hkey]; [reflexivity|]). destruct Hkey.
  - unfold in_op. apply mem_In in Hkey. rewrite Hkey. apply orb_true_r.
Qed.

Lemma inherited_name_passes_witness :
  exists flakeLock rootNode rootInputs,
    safeParse Examples.inherited_name_lock = Some flakeLock /\
    get "root" (nodes flakeLock) = Some rootNode /\
    inputs rootNode = Some rootInputs /\
    mem "constructor" (Object_keys rootInputs) = false /\
    In {| depName := "constructor";
          currentValue := Some "main";
          currentDigest := "abc123";
          replaceString := "abc123";
          datasource := "git-refs";
          packageName := Some "https://github.com/foo/bar" |}
       (emitted (Sibling.extractPackageFile "git-refs" "flake.lock"
                   Examples.inherited_name_lock [])).
Proof.
  do 3 eexists. split; [reflexivity|]. split; [reflexivity|].
  split; [reflexivity|]. split; [reflexivity|].
  exact (inherited_name_passes "git-refs" "flake.lock"
           Examples.inherited_name_lock [] _ _ _ "constructor" _ _ _ _
           eq_refl eq_refl eq_refl (or_introl eq_refl)
           eq_refl eq_refl eq_refl eq_refl eq_refl).
Defined.

(** * Further properties of the logs *)

Lemma errors_app (a b : list Logger.entry) :
  errors (a ++ b) = errors a + errors b.
Proof. unfold errors. now rewrite filter_app, List.length_app. Qed.

(** A loop each turn of which returns and adds to the log, with an error
    for the keys [p] selects and none for the others. *)
Lemma for_of_errors {A : Type} (body : string -> A -> M A)
    (p : string -> bool) (P : string -> Prop) :
  (forall key s log, P key ->
     exists s' delta,
       body key s log = (Normal s', (log ++ delta)%list) /\
       errors delta = if p key then 1 else 0) ->
  forall keys s log, Forall P keys ->
    exists s' delta,
      for_of keys body s log = (Normal s', (log ++ delta)%list) /\
      errors delta = length (filter p keys).
Proof.
  intros Hbody keys. induction keys as [|k rest IH]; intros s log HP.
  - exists s, []. simpl. unfold ret. now rewrite app_nil_r.
  - inversion HP as [|? ? Hk Hrest]; subst.
    destruct (Hbody k s log Hk) as (s1 & d1 & E1 & N1).
    destruct (IH s1 (log ++ d1)%list Hrest) as (s2 & d2 & E2 & N2).
    exists s2, (d1 ++ d2)%list. rewrite for_of_cons, E1, E2, app_assoc.
    split; [reflexivity|]. rewrite errors_app, N1, N2. simpl.
    now destruct (p k).
Qed.

Ltac log_leaf :=
  first [ eexists _, []; split; [now rewrite app_nil_r|reflexivity]
        | eexists _, [_]; split; reflexivity ].

Lemma sibling_turn_errors ds flakeLock rootNode key deps log :
  get "root" (nodes flakeLock) = Some rootNode ->
  In key (Object_keys (nodes flakeLock)) ->
  exists deps' delta,
    Sibling.loop_body ds flakeLock key deps log
    = (Normal deps', (log ++ delta)%list) /\
    errors delta
    = if negb (key =? "root") && negb (root_declares flakeLock key)
      then 1 else 0.
Proof.
  intros Hroot Hkey. apply get_of_key in Hkey as (node & Hnode).
  unfold Sibling.loop_body, root_declares. run_unfold.
  rewrite Hroot, Hnode. simpl.
  destruct (key =? "root"); simpl; [log_leaf|].
  destruct (inputs rootNode) as [rootInputs|]; simpl; [|log_leaf].
  destruct (in_op key rootInputs); simpl; [|log_leaf].
  repeat (split_goal; simpl); log_leaf.
Qed.

Lemma inline_turn_errors ds flakeLock key deps log :
  In key (Object_keys (nodes flakeLock)) ->
  exists deps' delta,
    Inline.loop_body ds flakeLock key deps log
    = (Normal deps', (log ++ delta)%list) /\
    errors delta = if false then 1 else 0.
Proof.
  intros Hkey. apply get_of_key in Hkey as (node & Hnode).
  unfold Inline.loop_body. run_unfold. rewrite Hnode. simpl.
  repeat (split_goal; simpl); log_leaf.
Qed.

Lemma snd_result l log : snd (result l log) = log.
Proof. now destruct l. Qed.

(** X19. On a lock file the schema accepts that holds its root entry, the
    sibling-file variant adds to the log one entry at the level of errors
    for each node, other than the root, that the root does not declare,
    and no other. *)
Theorem sibling_error_entries ds file data log flakeLock rootNode :
  safeParse data = Some flakeLock ->
  get "root" (nodes flakeLock) = Some rootNode ->
  exists delta,
    snd (Sibling.extractPackageFile ds file data log) = (log ++ delta)%list /\
    errors delta
    = length (filter (fun key => negb (key =? "root")
                                 && negb (root_declares flakeLock key))
                (Object_keys (nodes flakeLock))).
Proof.
  intros Hparse Hroot. unfold Sibling.extractPackageFile. run_unfold.
  rewrite Hparse.
  destruct (for_of_errors (Sibling.loop_body ds flakeLock)
              (fun key => negb (key =? "root")
                          && negb (root_declares flakeLock key))
              (fun key => In key (Object_keys (nodes flakeLock)))
              (fun key s l H =>
                 sibling_turn_errors ds flakeLock rootNode key s l Hroot H)
              (Object_keys (nodes flakeLock)) []
              (log ++ [(Logger.trace, Logger.nix_extractPackageFile file)])%list)
    as (deps' & delta & E & N).
  { apply Forall_forall. auto. }
  rewrite E. rewrite snd_result, <- app_assoc.
  eexists. split; [reflexivity|]. now rewrite errors_app.
Qed.

Lemma sibling_error_entries_witness :
  exists flakeLock rootNode delta,
    safeParse Examples.transitive_lock = Some flakeLock /\
    get "root" (nodes flakeLock) = Some rootNode /\
    snd (Sibling.extractPackageFile "git-refs" "flake.lock"
           Examples.transitive_lock [])
    = delta /\
    errors delta = 1.
Proof.
  destruct (sibling_error_entries "git-refs" "flake.lock"
              Examples.transitive_lock [] _ _ eq_refl eq_refl)
    as (delta & E & N).
  do 2 eexists. exists delta.
  split; [reflexivity|]. split; [reflexivity|].
  split; [exact E|exact N].
Defined.

(** X20. The inline variant never logs at the level of errors, whatever
    its input. *)
Theorem inline_logs_no_error ds data file log :
  exists delta,
    snd (Inline.extractPackageFile ds data file log) = (log ++ delta)%list /\
    errors delta = 0.
Proof.
  unfold Inline.extractPackageFile. run_unfold.
  destruct (safeParse data) as [flakeLock|]; simpl;
    [|eexists; rewrite <- app_assoc; split; reflexivity].
  destruct (negb (version flakeLock =? 7)%Z); simpl;
    [eexists; rewrite <- app_assoc; split; reflexivity|].
  destruct (for_of_errors (Inline.loop_body ds flakeLock)
              (fun _ => false)
              (fun key => In key (Object_keys (nodes flakeLock)))
              (fun key s l H => inline_turn_errors ds flakeLock key s l H)
              (Object_keys (nodes flakeLock)) []
              (log ++ [(Logger.trace, Logger.nix_extractPackageFile file)])%list)
    as (deps' & delta & E & N).
  { apply Forall_forall. auto. }
  rewrite E. rewrite snd_result, <- app_assoc.
  eexists. split; [reflexivity|]. rewrite errors_app, N. simpl.
  clear. induction (Object_keys (nodes flakeLock)); simpl; auto.
Qed.

(** * What the runs depend on *)

(** X21. Of a lock file the schema accepts, the sibling-file variant reads
    the nodes only: two files with the same nodes give the same run,
    whatever their [root] and [version] fields. The inline variant reads
    the nodes and the version. *)
Theorem depends_on_nodes ds file log data1 data2 flakeLock1 flakeLock2 :
  safeParse data1 = Some flakeLock1 ->
  safeParse data2 = Some flakeLock2 ->
  nodes flakeLock1 = nodes flakeLock2 ->
  Sibling.extractPackageFile ds file data1 log
  = Sibling.extractPackageFile ds file data2 log /\
  (version flakeLock1 = version flakeLock2 ->
   Inline.extractPackageFile ds data1 file log
   = Inline.extractPackageFile ds data2 file log).
Proof.
  intros H1 H2 Hnodes.
  unfold Sibling.extractPackageFile, Inline.extractPackageFile.
  rewrite H1, H2.
  destruct flakeLock1 as [nodes1 root1 version1],
           flakeLock2 as [nodes2 root2 version2].
  simpl in Hnodes. subst nodes2. split; [reflexivity|].
  simpl. intros ->. reflexivity.
Qed.

Lemma depends_on_nodes_witness :
  Sibling.extractPackageFile "git-refs" "flake.lock" Examples.github_lock []
  = Sibling.extractPackageFile "git-refs" "flake.lock" Examples.version6_lock [].
Proof.
  exact (proj1 (depends_on_nodes "git-refs" "flake.lock" []
                  Examples.github_lock Examples.version6_lock _ _
                  eq_refl eq_refl eq_refl)).
Defined.
